(** * Currency rates ETL: the DAG of [dags/dag_currency_etl.py]

    A shallow embedding of the three tasks [extract], [transform] and [load]
    and of the DAG that chains them, followed by the properties of the
    pipeline: the column contract of the frame, the rejection of empty rate
    data, the resolution of the date, the partition path, the retry policy of
    [extract] and the idempotence of a run.

    What the file depends on and does not define is a parameter of the
    development: the constant [API_URL] of [helpers.constants], the Airflow
    Variables [BASE_CURRENCY] and [OUTPUT_PATH], and [pd.to_datetime]. *)

From Stdlib Require Import ZArith QArith Ascii.
From stdpp Require Import base strings list gmap pretty.

Local Open Scope Z_scope.
Set Warnings "-register-all".

(** ** Python values *)

(** The value that [response.json()] returns. Numbers are rationals, the
    value of the Python int or float: the pipeline never computes with
    them, and pandas may convert them when it builds a column (see
    [infer_cell]). A [dict] keeps its insertion order, which [items()]
    follows. *)
Inductive json : Type :=
| JNull
| JBool (b : bool)
| JNum (q : Q)
| JStr (s : string)
| JArr (l : list json)
| JObj (d : list (string * json)).

Abbreviation dict := (list (string * json)).

(** The exceptions of [requests.exceptions], all below [RequestException]. *)
Inductive RequestException : Type :=
| ConnectionError (msg : string)
| Timeout (msg : string)
| HTTPError (msg : string)
| JSONDecodeError (msg : string).

Inductive exn : Type :=
| Requests (e : RequestException)
| AirflowException (msg : string)
| ValueError (msg : string)
| TypeError (msg : string)
| AttributeError (msg : string)
| KeyError (key : string).

(** A call either returns or raises. *)
Inductive result (A : Type) : Type :=
| Ok (a : A)
| Err (e : exn).
Arguments Ok {A} a.
Arguments Err {A} e.

Definition bind {A B : Type} (m : result A) (k : A -> result B) : result B :=
  match m with
  | Ok a => k a
  | Err e => Err e
  end.

Notation "'let*' x ':=' m 'in' k" := (bind m (fun x => k))
  (at level 10, x name, m at level 100, k at level 200).

Definition is_ok {A : Type} (m : result A) : bool :=
  match m with Ok _ => true | Err _ => false end.

(** [str(e)] *)
Definition str_request (e : RequestException) : string :=
  match e with
  | ConnectionError msg | Timeout msg | HTTPError msg | JSONDecodeError msg => msg
  end.

(** [d.get(key, default)]: the value of the first entry under [key]. *)
Fixpoint dict_lookup (d : dict) (key : string) : option json :=
  match d with
  | [] => None
  | (k, v) :: d' => if String.eqb k key then Some v else dict_lookup d' key
  end.

Definition dict_get (d : dict) (key : string) (default : json) : json :=
  match dict_lookup d key with
  | Some v => v
  | None => default
  end.

(** Truth value of an object, as [not x] reads it. *)
Definition truthy (v : json) : bool :=
  match v with
  | JNull => false
  | JBool b => b
  | JNum q => negb (Qnum q =? 0)
  | JStr s => negb (String.eqb s "")
  | JArr l => negb (bool_decide (length l = 0%nat))
  | JObj d => negb (bool_decide (length d = 0%nat))
  end.

(** [x.items()]: only a [dict] has the attribute. *)
Definition items (v : json) : result (list (string * json)) :=
  match v with
  | JObj d => Ok d
  | _ => Err (AttributeError "object has no attribute 'items'")
  end.

(** ** pandas *)

(** A [pd.Timestamp]: a calendar day and the nanoseconds after midnight. *)
Record Timestamp : Type := mkTimestamp {
  ts_year : Z;
  ts_month : Z;
  ts_day : Z;
  ts_nanos : Z
}.

(** What a cell of a frame holds: an object taken over from Python as it is,
    a timestamp, or what the dtype that pandas infers for a column of the
    values [column] makes of [v] ([CInferred], which is left open: an int
    beside floats is rounded to float64, [None] beside numbers becomes
    NaN). *)
Inductive cell : Type :=
| CObj (v : json)
| CTime (t : Timestamp)
| CInferred (column : list json) (v : json).

(** A [pd.DataFrame] with the default index: the column labels in order and
    the rows, every row as wide as [columns]. *)
Record DataFrame : Type := mkDataFrame {
  columns : list string;
  values : list (list cell)
}.

(** [len(df)] *)
Definition len (df : DataFrame) : nat := length (values df).

Fixpoint index_of (key : string) (labels : list string) : option nat :=
  match labels with
  | [] => None
  | c :: labels' =>
      if String.eqb c key then Some 0%nat
      else S <$> index_of key labels'
  end.

(** [df[key] = value] for a scalar [value]: the scalar fills the column; a
    new label is appended after the existing ones, an existing one keeps its
    place. *)
Definition setitem (df : DataFrame) (key : string) (value : cell) : DataFrame :=
  match index_of key (columns df) with
  | Some i =>
      {| columns := columns df;
         values := (fun row => <[i := value]> row) <$> values df |}
  | None =>
      {| columns := columns df ++ [key];
         values := (fun row => row ++ [value]) <$> values df |}
  end.

Fixpoint positions (keys labels : list string) : result (list nat) :=
  match keys with
  | [] => Ok []
  | k :: keys' =>
      match index_of k labels with
      | None => Err (KeyError k)
      | Some i => let* rest := positions keys' labels in Ok (i :: rest)
      end
  end.

Definition take_cells (places : list nat) (row : list cell) : list cell :=
  (fun i => default (CObj JNull) (row !! i)) <$> places.

(** [df[keys]] for a list of labels: the named columns, in the order of
    [keys]; a label that the frame lacks raises [KeyError]. *)
Definition getitem (df : DataFrame) (keys : list string) : result DataFrame :=
  let* places := positions keys (columns df) in
  Ok {| columns := keys; values := take_cells places <$> values df |}.

(** [df[key]] for one label: the values of that column, top to bottom. *)
Definition column (df : DataFrame) (key : string) : result (list cell) :=
  match index_of key (columns df) with
  | None => Err (KeyError key)
  | Some i => Ok ((fun row => default (CObj JNull) (row !! i)) <$> values df)
  end.

(** The cell that a scalar assignment of the value of [pd.to_datetime]
    writes: [to_datetime(None)] is [None]. *)
Definition date_cell (d : option Timestamp) : cell :=
  match d with
  | Some t => CTime t
  | None => CObj JNull
  end.

(** A number that a column of numbers holds with the value that Python
    holds, be the column int64 or float64: a number that is no integer (a
    float), or an integer of at most 2^53 in absolute value, which float64
    represents exactly. *)
Definition held_as_is (v : json) : bool :=
  match v with
  | JNum q =>
      negb (Qnum q mod Z.pos (Qden q) =? 0)
      || (Z.abs (Qnum q / Z.pos (Qden q)) <=? 2 ^ 53)
  | _ => false
  end.

(** The cell of [v] in a column that [pd.DataFrame] builds from the values
    [column]: the constructor gives the column one dtype. Numbers that need
    no rounding are held as they are, in an int64 or a float64 column; for
    every other column (an integer beyond 2^53, [None], a string, a bool,
    ...) the cell is what pandas infers. *)
Definition infer_cell (column : list json) (v : json) : cell :=
  if forallb held_as_is column then CObj v else CInferred column v.

(** [pd.DataFrame(list(rates.items()), columns=[...])]: one row per pair;
    the keys are strings and stay as they are, the values are the second
    column. *)
Definition item_row (column : list json) (kv : string * json) : list cell :=
  [CObj (JStr kv.1); infer_cell column kv.2].

Definition final_columns : list string :=
  ["date"; "base_currency"; "currency_code"; "rate"].

Section Transform.

(** [pd.to_datetime] on a scalar: a timestamp, [None] for [None], or an
    exception for what it cannot read as a date. *)
Variable to_datetime : json -> result (option Timestamp).

Definition transform (data : dict) (logical_date_str base_currency : string)
  : result DataFrame :=
  let rates := dict_get data "rates" (JObj []) in
  if negb (truthy rates) then
    Err (ValueError ("No rate data available for " +:+ logical_date_str))
  else
    let* pairs := items rates in
    let df := {| columns := ["currency_code"; "rate"];
                 values := item_row (snd <$> pairs) <$> pairs |} in
    let df := setitem df "base_currency" (CObj (JStr base_currency)) in
    let* d := to_datetime (dict_get data "date" (JStr logical_date_str)) in
    let df := setitem df "date" (date_cell d) in
    getitem df final_columns.

End Transform.

(** ** requests *)

Record Response : Type := mkResponse {
  status_code : Z;
  reason : string;
  url : string;
  body : option json  (* the body read as JSON, [None] when it is not JSON *)
}.

(** [requests.get] returns a response or raises below [RequestException]. *)
Abbreviation http_outcome := (RequestException + Response)%type.

Definition raise_for_status (r : Response) : result unit :=
  if (400 <=? status_code r) && (status_code r <? 500) then
    Err (Requests (HTTPError
      (pretty (status_code r) +:+ " Client Error: " +:+ reason r +:+
       " for url: " +:+ url r)))
  else if (500 <=? status_code r) && (status_code r <? 600) then
    Err (Requests (HTTPError
      (pretty (status_code r) +:+ " Server Error: " +:+ reason r +:+
       " for url: " +:+ url r)))
  else Ok ().

Definition response_json (r : Response) : result json :=
  match body r with
  | Some v => Ok v
  | None => Err (Requests (JSONDecodeError "Expecting value"))
  end.

(** [data.get('date')] in the log line of [extract] asks for a [dict]. *)
Definition as_dict (v : json) : result dict :=
  match v with
  | JObj d => Ok d
  | _ => Err (AttributeError "object has no attribute 'get'")
  end.

Section Extract.

Variable API_URL : string.

(** [extract], given what [requests.get] does on this call. *)
Definition extract
    (requests_get : string -> list (string * string) -> http_outcome)
    (logical_date_str base_currency : string) : result dict :=
  let endpoint := API_URL +:+ "/" +:+ logical_date_str in
  let params := [("base", base_currency)] in
  let attempt :=
    let* response :=
      match requests_get endpoint params with
      | inl e => Err (Requests e)
      | inr r => Ok r
      end in
    let* _ := raise_for_status response in
    let* data := response_json response in
    let* data := as_dict data in
    Ok data in
  match attempt with
  | Err (Requests e) =>
      Err (AirflowException ("API request failed: " +:+ str_request e))
  | r => r
  end.

End Extract.

(** ** Storage *)

(** What [df.to_parquet(path, index=False, engine=..., compression=...)]
    leaves at [path]. *)
Record ParquetFile : Type := mkParquetFile {
  pq_frame : DataFrame;
  pq_index : bool;
  pq_engine : string;
  pq_compression : string
}.

Definition str_exn (e : exn) : string :=
  match e with
  | Requests r => str_request r
  | AirflowException msg | ValueError msg | TypeError msg
  | AttributeError msg => msg
  | KeyError key => key
  end.

(** The Google side of [load]: what [get_credentials] of the connection
    [gcp_default] answers, and whether the upload to a path with a token
    raises. *)
Record Cloud : Type := mkCloud {
  get_credentials : result string;
  upload_error : string -> string -> option exn
}.

Section Load.

Variable OUTPUT_PATH : string.

Definition partition_path (logical_date_str base_currency : string) : string :=
  OUTPUT_PATH +:+ "/base_currency=" +:+ base_currency +:+
  "/date=" +:+ logical_date_str.

Definition output_file (logical_date_str base_currency : string) : string :=
  partition_path logical_date_str base_currency +:+ "/data.parquet".

(** [load] on a bucket: the objects of the bucket by path. Writing replaces
    the object at the path. *)
Definition load (cloud : Cloud) (df : DataFrame)
    (logical_date_str base_currency : string)
    (bucket : gmap string ParquetFile)
  : result unit * gmap string ParquetFile :=
  match get_credentials cloud with
  | Err e =>
      (Err (AirflowException ("Failed to authenticate with GCP: " +:+ str_exn e)),
       bucket)
  | Ok credentials =>
      let file := output_file logical_date_str base_currency in
      match upload_error cloud file credentials with
      | Some e =>
          (Err (AirflowException ("Failed to write to GCS: " +:+ str_exn e)),
           bucket)
      | None =>
          (Ok (),
           <[file := {| pq_frame := df; pq_index := false;
                        pq_engine := "pyarrow";
                        pq_compression := "snappy" |}]> bucket)
      end
  end.

End Load.

(** ** Airflow *)

Inductive TaskId : Type := task_extract | task_transform | task_load.

(** What a run does that an observer can count: a call of a task's function
    (with the number of the try) and a wait before a retry, in seconds. *)
Inductive Event : Type :=
| Called (t : TaskId) (try_number : nat)
| Waited (seconds : Z).

Inductive TaskState : Type :=
| success
| failed (e : exn)
| upstream_failed.

(** The arguments of [@task] that the DAG sets. *)
Record TaskArgs : Type := mkTaskArgs {
  retries : nat;
  retry_delay : Z  (* seconds *)
}.

(** [timedelta(minutes=n)] in seconds *)
Definition minutes (n : Z) : Z := 60 * n.

(** [@task(retries=5, retry_delay=timedelta(minutes=1))] *)
Definition extract_args : TaskArgs :=
  {| retries := 5; retry_delay := minutes 1 |}.

(** [default_args] of the DAG, with Airflow's own default delay. *)
Definition default_args : TaskArgs :=
  {| retries := 0; retry_delay := 300 |}.

(** A task instance: the function runs; when it raises and retries remain,
    Airflow waits for [retry_delay] and runs it again as the next try; when
    none remain, the task has failed. [retries] counts the runs after the
    first one. *)
Fixpoint run_task {A St : Type} (t : TaskId) (delay : Z)
    (python_callable : nat -> St -> result A * St)
    (retries_left try_number : nat) (st : St) : result A * St * list Event :=
  let '(r, st') := python_callable try_number st in
  match r, retries_left with
  | Err _, S n =>
      let '(r', st'', evs) :=
        run_task t delay python_callable n (S try_number) st' in
      (r', st'', Called t try_number :: Waited delay :: evs)
  | _, _ => (r, st', [Called t try_number])
  end.

(** What surrounds a run: the answer of [requests.get] at each try of
    [extract], and the Google side. *)
Record World : Type := mkWorld {
  network : nat -> string -> list (string * string) -> http_outcome;
  cloud : Cloud
}.

Record DagRun : Type := mkDagRun {
  extract_state : TaskState;
  transform_state : TaskState;
  load_state : TaskState;
  events : list Event;
  bucket : gmap string ParquetFile
}.

Definition state_of {A : Type} (r : result A) : TaskState :=
  match r with
  | Ok _ => success
  | Err e => failed e
  end.

Section Dag.

Variable API_URL : string.
Variable BASE_CURRENCY : string.
Variable OUTPUT_PATH : string.
Variable to_datetime : json -> result (option Timestamp).

(** One run of the DAG for the logical date that [{{ ds }}] renders to. A
    task whose upstream task has failed is not run. *)
Definition currency_rates_etl_dag (w : World) (logical_date : string)
    (objects : gmap string ParquetFile) : DagRun :=
  let '(json_data, objects1, log1) :=
    run_task task_extract (retry_delay extract_args)
      (fun n st => (extract API_URL (network w n) logical_date BASE_CURRENCY, st))
      (retries extract_args) 1 objects in
  match json_data with
  | Err e =>
      {| extract_state := failed e; transform_state := upstream_failed;
         load_state := upstream_failed; events := log1; bucket := objects1 |}
  | Ok data =>
      let '(df, objects2, log2) :=
        run_task task_transform (retry_delay default_args)
          (fun _ st => (transform to_datetime data logical_date BASE_CURRENCY, st))
          (retries default_args) 1 objects1 in
      match df with
      | Err e =>
          {| extract_state := success; transform_state := failed e;
             load_state := upstream_failed; events := log1 ++ log2;
             bucket := objects2 |}
      | Ok df =>
          let '(done, objects3, log3) :=
            run_task task_load (retry_delay default_args)
              (fun _ st => load OUTPUT_PATH (cloud w) df logical_date BASE_CURRENCY st)
              (retries default_args) 1 objects2 in
          {| extract_state := success; transform_state := success;
             load_state := state_of done; events := log1 ++ log2 ++ log3;
             bucket := objects3 |}
      end
  end.

End Dag.

(** How many times a run called the function of task [t]. *)
Definition is_call (t : TaskId) (ev : Event) : bool :=
  match ev, t with
  | Called task_extract _, task_extract
  | Called task_transform _, task_transform
  | Called task_load _, task_load => true
  | _, _ => false
  end.

Definition calls (t : TaskId) (log : list Event) : nat :=
  length (filter (fun ev => is_call t ev = true) log).

(** The log of a task that fails at every try and runs out of retries. *)
Fixpoint exhausted_log (t : TaskId) (delay : Z) (retries_left try_number : nat)
  : list Event :=
  match retries_left with
  | O => [Called t try_number]
  | S n =>
      Called t try_number :: Waited delay ::
      exhausted_log t delay n (S try_number)
  end.

(** The waits of a run, in order. *)
Definition waits (log : list Event) : list Z :=
  omap (fun ev => match ev with Waited s => Some s | Called _ _ => None end) log.

(** ** A reader for the dates of the examples *)

Definition digit (a : Ascii.ascii) : option Z :=
  let n := Z.of_N (Ascii.N_of_ascii a) in
  if (48 <=? n) && (n <=? 57) then Some (n - 48) else None.

Definition is_leap (y : Z) : bool :=
  (y mod 4 =? 0) && (negb (y mod 100 =? 0) || (y mod 400 =? 0)).

Definition days_in_month (y m : Z) : Z :=
  if m =? 2 then (if is_leap y then 29 else 28)
  else if (m =? 4) || (m =? 6) || (m =? 9) || (m =? 11) then 30
  else 31.

(** [YYYY-MM-DD], a day of the calendar. *)
Definition parse_iso_date (s : string) : option Timestamp :=
  match s with
  | String y1 (String y2 (String y3 (String y4 (String s1
      (String m1 (String m2 (String s2 (String d1 (String d2 EmptyString))))))))) =>
      y1 ← digit y1; y2 ← digit y2; y3 ← digit y3; y4 ← digit y4;
      m1 ← digit m1; m2 ← digit m2; d1 ← digit d1; d2 ← digit d2;
      let y := 1000 * y1 + 100 * y2 + 10 * y3 + y4 in
      let m := 10 * m1 + m2 in
      let d := 10 * d1 + d2 in
      if Ascii.eqb s1 "-"%char && Ascii.eqb s2 "-"%char
         && (1678 <=? y) && (y <=? 2261)
         && (1 <=? m) && (m <=? 12)
         && (1 <=? d) && (d <=? days_in_month y m)
      then Some (mkTimestamp y m d 0) else None
  | _ => None
  end.

(** The reading of [pd.to_datetime] that the examples run with. It agrees
    with pandas on [None] and on the strings [YYYY-MM-DD] of the years that
    a nanosecond timestamp holds in full (1678 to 2261), and on the strings
    that are no date in any format, which raise. Everything else it rejects
    too, where pandas reads further formats: the general theorems hold for
    every reader and do not depend on this one. *)
Definition iso_to_datetime (v : json) : result (option Timestamp) :=
  match v with
  | JNull => Ok None
  | JStr s =>
      match parse_iso_date s with
      | Some t => Ok (Some t)
      | None =>
          Err (ValueError ("Unknown datetime string format, unable to parse: " +:+ s))
      end
  | _ => Err (TypeError "not convertible to datetime")
  end.

(** ** The values of the examples *)

Definition sample_rates : dict :=
  [("EUR", JNum 0.92); ("GBP", JNum 0.79)].

Definition sample_response : dict :=
  [("date", JStr "2025-07-01"); ("rates", JObj sample_rates)].

(** The service answers 200 with [data] at every try; credentials are there
    and uploads go through. *)
Definition world_up (data : dict) : World :=
  {| network := fun _ endpoint _ =>
       inr {| status_code := 200; reason := "OK"; url := endpoint;
              body := Some (JObj data) |};
     cloud := {| get_credentials := Ok "token";
                 upload_error := fun _ _ => None |} |}.

(** The service times out at every try. *)
Definition world_down : World :=
  {| network := fun _ _ _ => inl (Timeout "Read timed out.");
     cloud := {| get_credentials := Ok "token";
                 upload_error := fun _ _ => None |} |}.

(** ** The date rule in the words of the specification *)

(** "service-provided date if present and parseable, else fallback_date" *)
Definition spec_resolved_date (to_datetime : json -> result (option Timestamp))
    (data : dict) (fallback_date : string) : result (option Timestamp) :=
  match dict_lookup data "date" with
  | Some v =>
      match to_datetime v with
      | Ok d => Ok d
      | Err _ => to_datetime (JStr fallback_date)
      end
  | None => to_datetime (JStr fallback_date)
  end.

(** Every record of the frame that [transform] returns carries the date that
    the rule of the specification resolves. *)
Definition stamps_spec_resolved_date
    (to_datetime : json -> result (option Timestamp))
    (data : dict) (fallback_date base_currency : string) : Prop :=
  exists d df,
    spec_resolved_date to_datetime data fallback_date = Ok d /\
    transform to_datetime data fallback_date base_currency = Ok df /\
    column df "date" = Ok (replicate (len df) (date_cell d)).

(** ** What the statements below speak of *)

(** A response whose date is no date. *)
Definition garbled_response : dict :=
  [("date", JStr "not-a-date"); ("rates", JObj sample_rates)].

(** A response that echoes the day before the requested one. *)
Definition stale_response : dict :=
  [("date", JStr "2025-06-30"); ("rates", JObj sample_rates)].

(** A fetch that fails: [requests.get] raised, or the status is 4xx or 5xx. *)
Definition fetch_fails (o : http_outcome) : Prop :=
  match o with
  | inl _ => True
  | inr r => 400 <= status_code r < 600
  end.

(** The file that [load] writes for a frame. *)
Definition parquet_of (df : DataFrame) : ParquetFile :=
  {| pq_frame := df; pq_index := false; pq_engine := "pyarrow";
     pq_compression := "snappy" |}.

(** The frame that [transform] builds from the pairs of [rates]. *)
Definition rate_record (d : option Timestamp) (base_currency : string)
    (column : list json) (kv : string * json) : list cell :=
  [date_cell d; CObj (JStr base_currency); CObj (JStr kv.1);
   infer_cell column kv.2].

Definition rate_table (d : option Timestamp) (base_currency : string)
    (rates : dict) : DataFrame :=
  {| columns := final_columns;
     values := rate_record d base_currency (snd <$> rates) <$> rates |}.

(** ** Airflow Variables *)

(** [Variable.get(key)] without a default: the value of the Variable, or
    [KeyError] when there is none under [key]. *)
Definition Variable_get (variables : gmap string string) (key : string)
  : result string :=
  match variables !! key with
  | Some v => Ok v
  | None => Err (KeyError ("Variable " +:+ key +:+ " does not exist"))
  end.

(** The configuration block at the head of the module: [BASE_CURRENCY] and
    [OUTPUT_PATH] in this order, or [AirflowException] with the text of the
    [KeyError] ([str] of a [KeyError] puts its message between quotes). *)
Definition dag_configuration (variables : gmap string string)
  : result (string * string) :=
  let attempt :=
    let* base_currency := Variable_get variables "base_currency" in
    let* output_path := Variable_get variables "output_path" in
    Ok (base_currency, output_path) in
  match attempt with
  | Err (KeyError msg) =>
      Err (AirflowException
             ("Failed to load Airflow Variable: '" +:+ msg +:+
              "'. Please set it in Airflow UI."))
  | r => r
  end.

(** ** Further worlds of the examples *)

(** The service times out twice and answers [data] from the third try on. *)
Definition world_flaky (data : dict) : World :=
  {| network := fun n endpoint _ =>
       if (n <=? 2)%nat then inl (Timeout "Read timed out.")
       else inr {| status_code := 200; reason := "OK"; url := endpoint;
                   body := Some (JObj data) |};
     cloud := {| get_credentials := Ok "token";
                 upload_error := fun _ _ => None |} |}.

(** The service answers [data]; the connection [gcp_default] is not there. *)
Definition world_no_credentials (data : dict) : World :=
  {| network := network (world_up data);
     cloud := {| get_credentials :=
                   Err (AirflowException "The conn_id `gcp_default` isn't defined");
                 upload_error := fun _ _ => None |} |}.

(** The total of a list of waits, in seconds. *)
Definition total_wait (ws : list Z) : Z := foldr Z.add 0 ws.

(** * Properties *)

(** ** Strings *)

Lemma append_assoc (a b c : string) : (a +:+ b) +:+ c = a +:+ (b +:+ c).
Proof.
  induction a as [|ch a IH]; [reflexivity|].
  change (String ch ((a +:+ b) +:+ c) = String ch (a +:+ (b +:+ c))).
  by rewrite IH.
Qed.

(** ** transform *)

Section TransformProps.

Variable to_datetime : json -> result (option Timestamp).

Lemma truthy_dict (rates : dict) : truthy (JObj rates) = true <-> rates <> [].
Proof.
  destruct rates as [|kv rates]; simpl; split; try done.
Qed.

Lemma dict_get_lookup (data : dict) (key : string) (v dflt : json) :
  dict_lookup data key = Some v -> dict_get data key dflt = v.
Proof. unfold dict_get. by intros ->. Qed.

Lemma dict_get_missing (data : dict) (key : string) (dflt : json) :
  dict_lookup data key = None -> dict_get data key dflt = dflt.
Proof. unfold dict_get. by intros ->. Qed.

(** The frame of [transform] before the columns are put in order, then in
    order: one record per pair. *)
Lemma reorder_rows (d : option Timestamp) (base_currency : string) (rates : dict) :
  getitem
    (setitem
       (setitem {| columns := ["currency_code"; "rate"];
                   values := item_row (snd <$> rates) <$> rates |}
          "base_currency" (CObj (JStr base_currency)))
       "date" (date_cell d))
    final_columns
  = Ok (rate_table d base_currency rates).
Proof.
  unfold getitem, setitem, rate_table. simpl.
  f_equal. f_equal.
  rewrite <- !list_fmap_compose.
  apply list_fmap_ext. intros _ [k v] _. reflexivity.
Qed.

(** When the rates are a dict with an entry, [transform] does what
    [to_datetime] does on the date that applies. *)
Lemma transform_nonempty (data : dict) (logical_date_str base_currency : string)
    (rates : dict) :
  dict_lookup data "rates" = Some (JObj rates) ->
  rates <> [] ->
  transform to_datetime data logical_date_str base_currency =
    let* d := to_datetime (dict_get data "date" (JStr logical_date_str)) in
    Ok (rate_table d base_currency rates).
Proof.
  intros Hrates Hne. unfold transform.
  rewrite (dict_get_lookup _ _ _ _ Hrates).
  apply truthy_dict in Hne. rewrite Hne. simpl.
  destruct (to_datetime _) as [d|e]; simpl; [|reflexivity].
  apply reorder_rows.
Qed.

(** Conversely a frame comes out only of a dict of rates with an entry and
    a date that [to_datetime] reads. *)
Lemma transform_inv (data : dict) (logical_date_str base_currency : string)
    (df : DataFrame) :
  transform to_datetime data logical_date_str base_currency = Ok df ->
  exists rates d,
    dict_lookup data "rates" = Some (JObj rates) /\ rates <> [] /\
    to_datetime (dict_get data "date" (JStr logical_date_str)) = Ok d /\
    df = rate_table d base_currency rates.
Proof.
  intros H. unfold transform in H. unfold dict_get at 1 2 in H.
  destruct (dict_lookup data "rates") as [v|] eqn:Hl; [|simpl in H; discriminate].
  destruct (truthy v) eqn:Ht; simpl in H; [|discriminate].
  destruct v as [| | | | |rates]; simpl in H; try discriminate.
  apply truthy_dict in Ht.
  destruct (to_datetime _) as [d|e] eqn:Hd; simpl in H; [|discriminate].
  rewrite reorder_rows in H. injection H as <-.
  by exists rates, d.
Qed.

Lemma column_date (d : option Timestamp) (base_currency : string) (rates : dict) :
  column (rate_table d base_currency rates) "date"
  = Ok (replicate (length rates) (date_cell d)).
Proof.
  unfold column, rate_table; cbn [columns values].
  change (index_of "date" final_columns) with (Some 0%nat).
  f_equal. rewrite <- list_fmap_compose.
  generalize (snd <$> rates). intros col.
  induction rates as [|kv rates IH]; [reflexivity|].
  rewrite fmap_cons. cbn [length replicate]. by rewrite IH.
Qed.


Lemma column_currency_code (d : option Timestamp) (base_currency : string)
    (rates : dict) :
  column (rate_table d base_currency rates) "currency_code"
  = Ok ((fun kv => CObj (JStr kv.1)) <$> rates).
Proof.
  unfold column, rate_table; cbn [columns values].
  change (index_of "currency_code" final_columns) with (Some 2%nat).
  f_equal. rewrite <- list_fmap_compose.
  apply list_fmap_ext. intros _ kv _. reflexivity.
Qed.

Lemma len_rate_table (d : option Timestamp) (base_currency : string) (rates : dict) :
  len (rate_table d base_currency rates) = length rates.
Proof. unfold len. simpl. apply length_fmap. Qed.


(** C3: when the rates of the response are an empty dict (the key holds [{}],
    or is missing, which [get] reads as [{}]), [transform] raises
    [ValueError] and returns no frame, whatever the fallback date and the
    base currency. *)
Theorem transform_rejects_empty_rates
    (data : dict) (logical_date_str base_currency : string) :
  dict_get data "rates" (JObj []) = JObj [] ->
  transform to_datetime data logical_date_str base_currency =
    Err (ValueError ("No rate data available for " +:+ logical_date_str)).
Proof.
  intros Hempty. unfold transform. rewrite Hempty. reflexivity.
Qed.

(** C4, as amended: for a response whose rates are a dict with at least one
    entry, the date that applies is the one of the service when the response
    has the key, and the fallback argument when it lacks the key. When
    [to_datetime] reads that date, every record of the frame carries it;
    when it does not, [transform] raises what [to_datetime] raised and does
    not turn to the fallback. *)
Theorem transform_stamps_resolved_date
    (data : dict) (logical_date_str base_currency : string) (rates : dict) :
  dict_lookup data "rates" = Some (JObj rates) ->
  rates <> [] ->
  let applies :=
    match dict_lookup data "date" with
    | Some v => v
    | None => JStr logical_date_str
    end in
  match to_datetime applies with
  | Ok d =>
      exists df,
        transform to_datetime data logical_date_str base_currency = Ok df /\
        len df = length rates /\
        column df "date" = Ok (replicate (len df) (date_cell d))
  | Err e =>
      transform to_datetime data logical_date_str base_currency = Err e
  end.
Proof.
  intros Hrates Hne applies.
  rewrite (transform_nonempty _ _ _ _ Hrates Hne).
  change (dict_get data "date" (JStr logical_date_str)) with applies.
  destruct (to_datetime applies) as [d|e]; simpl; [|reflexivity].
  eexists. split; [reflexivity|].
  rewrite len_rate_table. split; [reflexivity|apply column_date].
Qed.

(** C5: for a response with a non-empty dict of rates and no date key, every
    record of the frame carries the requested logical date, the fallback
    argument as [to_datetime] reads it. *)
Theorem transform_date_fallback
    (data : dict) (logical_date_str base_currency : string)
    (rates : dict) (t : Timestamp) :
  dict_lookup data "rates" = Some (JObj rates) ->
  rates <> [] ->
  dict_lookup data "date" = None ->
  to_datetime (JStr logical_date_str) = Ok (Some t) ->
  exists df,
    transform to_datetime data logical_date_str base_currency = Ok df /\
    len df = length rates /\
    column df "date" = Ok (replicate (len df) (CTime t)).
Proof.
  intros Hrates Hne Hnone Ht.
  rewrite (transform_nonempty _ _ _ _ Hrates Hne).
  rewrite (dict_get_missing _ _ _ Hnone), Ht. simpl.
  eexists. split; [reflexivity|].
  rewrite len_rate_table. split; [reflexivity|apply column_date].
Qed.

End TransformProps.

(** ** extract *)

Lemma raise_for_status_error (r : Response) :
  400 <= status_code r < 600 ->
  exists msg, raise_for_status r = Err (Requests (HTTPError msg)).
Proof.
  intros [Hlo Hhi]. unfold raise_for_status.
  destruct (Z.leb_spec 400 (status_code r)) as [_|]; [|lia].
  destruct (Z.ltb_spec (status_code r) 500) as [_|H5]; simpl; [by eexists|].
  destruct (Z.leb_spec 500 (status_code r)) as [_|]; [|lia].
  destruct (Z.ltb_spec (status_code r) 600) as [_|]; [|lia].
  simpl. by eexists.
Qed.

(** C9: whenever the fetch fails, by an exception of [requests.get] (a
    timeout, a refused connection, ...) or by a status of the 4xx or of the
    5xx range, [extract] raises the one exception [AirflowException], with
    the text of the failure after a fixed prefix, and returns no value. *)
Theorem extract_failure_uniform (API_URL : string)
    (requests_get : string -> list (string * string) -> http_outcome)
    (logical_date_str base_currency : string) :
  fetch_fails
    (requests_get (API_URL +:+ "/" +:+ logical_date_str)
       [("base", base_currency)]) ->
  exists e : RequestException,
    extract API_URL requests_get logical_date_str base_currency =
      Err (AirflowException ("API request failed: " +:+ str_request e)).
Proof.
  unfold extract, fetch_fails.
  destruct (requests_get _ _) as [e|r]; simpl.
  - intros _. by exists e.
  - intros Hstatus.
    destruct (raise_for_status_error r Hstatus) as [msg ->]. simpl.
    by exists (HTTPError msg).
Qed.

(** ** load *)

Section LoadProps.

Variable OUTPUT_PATH : string.

Lemma output_file_eq (logical_date_str base_currency : string) :
  output_file OUTPUT_PATH logical_date_str base_currency =
  OUTPUT_PATH +:+ "/base_currency=" +:+ base_currency +:+
  "/date=" +:+ logical_date_str +:+ "/data.parquet".
Proof.
  unfold output_file, partition_path. by rewrite !append_assoc.
Qed.

(** When [load] returns, the bucket has the file of the frame at
    [output_file], and is otherwise as before; when it raises, the bucket
    is as before. *)
Lemma load_result (cloud : Cloud) (df : DataFrame)
    (logical_date_str base_currency : string)
    (objects : gmap string ParquetFile) :
  let r := load OUTPUT_PATH cloud df logical_date_str base_currency objects in
  match r.1 with
  | Ok _ =>
      r.2 = <[output_file OUTPUT_PATH logical_date_str base_currency :=
                parquet_of df]> objects
  | Err e => r.2 = objects /\ exists msg, e = AirflowException msg
  end.
Proof.
  unfold load.
  destruct (get_credentials cloud) as [tok|e]; simpl; [|by eauto].
  destruct (upload_error cloud _ tok); simpl; by eauto.
Qed.


End LoadProps.

(** ** Tasks and retries *)

Section RunTask.

Context {A St : Type}.
Variable t : TaskId.
Variable delay : Z.
Variable f : nat -> result A.

Local Abbreviation stateless := (fun (n : nat) (s : St) => (f n, s)).

(** A function that leaves the state alone leaves it alone at every try. *)
Lemma run_task_state (retries_left try_number : nat) (st : St) :
  (run_task t delay stateless retries_left try_number st).1.2 = st.
Proof.
  revert try_number.
  induction retries_left as [|n IH]; intros try_number; simpl;
    destruct (f try_number) as [a|e]; simpl; try reflexivity.
  specialize (IH (S try_number)).
  destruct (run_task t delay stateless n (S try_number) st) as [[x o] evs].
  exact IH.
Qed.

(** Its result and its log do not depend on the state. *)
Lemma run_task_indep (retries_left try_number : nat) (st st0 : St) :
  (run_task t delay stateless retries_left try_number st).1.1 =
  (run_task t delay stateless retries_left try_number st0).1.1 /\
  (run_task t delay stateless retries_left try_number st).2 =
  (run_task t delay stateless retries_left try_number st0).2.
Proof.
  revert try_number.
  induction retries_left as [|n IH]; intros try_number; simpl;
    destruct (f try_number) as [a|e]; simpl; try done.
  specialize (IH (S try_number)).
  destruct (run_task t delay stateless n (S try_number) st) as [[x o] evs].
  destruct (run_task t delay stateless n (S try_number) st0) as [[x0 o0] evs0].
  simpl in *. destruct IH as [-> ->]. done.
Qed.

(** A value that the task returns is the value of one of its tries. *)
Lemma run_task_ok (retries_left try_number : nat) (st : St) (a : A) :
  (run_task t delay stateless retries_left try_number st).1.1 = Ok a ->
  exists k, (try_number <= k <= try_number + retries_left)%nat /\ f k = Ok a.
Proof.
  revert try_number.
  induction retries_left as [|n IH]; intros try_number; simpl.
  - destruct (f try_number) as [a'|e] eqn:Hf; simpl; intros [= <-].
    exists try_number. split; [lia|done].
  - destruct (f try_number) as [a'|e] eqn:Hf; simpl.
    + intros [= <-]. exists try_number. split; [lia|done].
    + specialize (IH (S try_number)).
      destruct (run_task t delay stateless n (S try_number) st) as [[x o] evs].
      simpl in *. intros Hx. destruct (IH Hx) as (k & Hk & Hfk).
      exists k. split; [lia|done].
Qed.

(** When every try fails, the task runs once and then once per retry, with
    the delay before each retry, and fails. *)
Lemma run_task_exhausted (retries_left try_number : nat) (st : St) :
  (forall n, is_ok (f n) = false) ->
  (run_task t delay stateless retries_left try_number st).1.1 =
    f (try_number + retries_left)%nat /\
  (run_task t delay stateless retries_left try_number st).2 =
    exhausted_log t delay retries_left try_number.
Proof.
  intros Hfail. revert try_number.
  induction retries_left as [|n IH]; intros try_number; simpl.
  - rewrite Nat.add_0_r. by destruct (f try_number).
  - pose proof (Hfail try_number) as Hf.
    destruct (f try_number) as [a|e]; [discriminate|].
    specialize (IH (S try_number)).
    destruct (run_task t delay stateless n (S try_number) st) as [[x o] evs].
    simpl in *. destruct IH as [-> ->].
    split; [f_equal; lia|done].
Qed.

End RunTask.

(** ** The DAG *)

Section DagProps.

Variable API_URL : string.
Variable BASE_CURRENCY : string.
Variable OUTPUT_PATH : string.
Variable to_datetime : json -> result (option Timestamp).

Local Abbreviation dag :=
  (currency_rates_etl_dag API_URL BASE_CURRENCY OUTPUT_PATH to_datetime).

(** What [extract] does at try [n] of a run in world [w]. *)
Local Abbreviation fetch w logical_date :=
  (fun n : nat => extract API_URL (network w n) logical_date BASE_CURRENCY).

(** The run, task by task: [extract] with its retries, then [transform] and
    [load] once each, every task only after the one before it returned. *)
Lemma dag_eq (w : World) (logical_date : string)
    (objects : gmap string ParquetFile) :
  dag w logical_date objects =
  let E := run_task task_extract 60
             (fun n st => (fetch w logical_date n, st)) 5 1 objects in
  match E.1.1 with
  | Err e => mkDagRun (failed e) upstream_failed upstream_failed E.2 objects
  | Ok data =>
      match transform to_datetime data logical_date BASE_CURRENCY with
      | Err e =>
          mkDagRun success (failed e) upstream_failed
            (E.2 ++ [Called task_transform 1%nat]) objects
      | Ok df =>
          let L := load OUTPUT_PATH (cloud w) df logical_date BASE_CURRENCY
                     objects in
          mkDagRun success success (state_of L.1)
            (E.2 ++ [Called task_transform 1%nat] ++ [Called task_load 1%nat])
            L.2
      end
  end.
Proof.
  unfold currency_rates_etl_dag.
  change (retry_delay extract_args) with 60.
  change (retries extract_args) with 5%nat.
  change (retries default_args) with 0%nat.
  pose proof (run_task_state task_extract 60 (fetch w logical_date) 5 1 objects)
    as Hst.
  destruct (run_task task_extract 60 _ 5 1 objects) as [[x o] log1].
  simpl in Hst. subst o. cbv zeta. cbn [fst snd].
  destruct x as [data|e]; [|reflexivity].
  cbn [run_task].
  destruct (transform to_datetime data logical_date BASE_CURRENCY) as [df|e];
    [|reflexivity].
  destruct (load OUTPUT_PATH (cloud w) df logical_date BASE_CURRENCY objects)
    as [[[]|e] o]; reflexivity.
Qed.

(** A run whose [load] succeeded fetched the data at one of the six tries,
    made a frame of it, and put the file of that frame at the path of the
    logical date. *)
Lemma dag_success_inv (w : World) (logical_date : string)
    (objects : gmap string ParquetFile) :
  load_state (dag w logical_date objects) = success ->
  exists (k : nat) (data : dict) (df : DataFrame),
    (1 <= k <= 6)%nat /\
    fetch w logical_date k = Ok data /\
    transform to_datetime data logical_date BASE_CURRENCY = Ok df /\
    bucket (dag w logical_date objects) =
      <[output_file OUTPUT_PATH logical_date BASE_CURRENCY := parquet_of df]>
        objects.
Proof.
  rewrite dag_eq. cbv zeta.
  destruct (run_task task_extract 60 _ 5 1 objects).1.1 as [data|e] eqn:HE;
    [|discriminate].
  destruct (transform to_datetime data logical_date BASE_CURRENCY) as [df|e]
    eqn:HT; [|discriminate].
  pose proof (load_result OUTPUT_PATH (cloud w) df logical_date BASE_CURRENCY
                objects) as HL. cbv zeta in HL.
  cbn [load_state bucket].
  destruct (load OUTPUT_PATH (cloud w) df logical_date BASE_CURRENCY objects).1
    as [[]|e]; [|discriminate].
  intros _.
  destruct (run_task_ok task_extract 60 (fetch w logical_date) 5 1 objects data HE)
    as (k & Hk & Hfk).
  exists k, data, df. repeat split; try done; lia.
Qed.

(** A run never adds a file anywhere but at the path of its logical date. *)
Lemma dag_bucket (w : World) (logical_date : string)
    (objects : gmap string ParquetFile) :
  bucket (dag w logical_date objects) = objects \/
  exists file,
    bucket (dag w logical_date objects) =
      <[output_file OUTPUT_PATH logical_date BASE_CURRENCY := file]> objects.
Proof.
  rewrite dag_eq. cbv zeta.
  destruct (run_task task_extract 60 _ 5 1 objects).1.1 as [data|e];
    [|by left].
  destruct (transform to_datetime data logical_date BASE_CURRENCY) as [df|e];
    [|by left].
  pose proof (load_result OUTPUT_PATH (cloud w) df logical_date BASE_CURRENCY
                objects) as HL. cbv zeta in HL.
  cbn [bucket].
  destruct (load OUTPUT_PATH (cloud w) df logical_date BASE_CURRENCY objects).1
    as [[]|e].
  - right. by eexists.
  - left. by destruct HL.
Qed.

(** C2, as amended: when [extract] fails at every try, the run calls it
    exactly six times, the first try and the five retries, waits the fixed
    minute before each of the five retries and never otherwise, and then
    fails: [transform] and [load] are not called, their tasks end as
    upstream_failed, and the bucket is as before. *)
Theorem extract_retries_exhausted (w : World) (logical_date : string)
    (objects : gmap string ParquetFile) :
  (forall n, is_ok (fetch w logical_date n) = false) ->
  let run := dag w logical_date objects in
  calls task_extract (events run) = 6%nat /\
  events run =
    [Called task_extract 1; Waited 60; Called task_extract 2; Waited 60;
     Called task_extract 3; Waited 60; Called task_extract 4; Waited 60;
     Called task_extract 5; Waited 60; Called task_extract 6] /\
  waits (events run) = replicate 5 60 /\
  calls task_transform (events run) = 0%nat /\
  calls task_load (events run) = 0%nat /\
  (exists msg, extract_state run = failed msg) /\
  transform_state run = upstream_failed /\
  load_state run = upstream_failed /\
  bucket run = objects.
Proof.
  intros Hfail run. subst run. rewrite dag_eq. cbv zeta.
  destruct (run_task_exhausted task_extract 60 (fetch w logical_date) 5 1
              objects Hfail) as [Hres Hlog].
  rewrite Hres, Hlog.
  pose proof (Hfail (1 + 5)%nat) as H6.
  destruct (extract API_URL (network w (1 + 5)) logical_date BASE_CURRENCY)
    as [data|e]; [discriminate|].
  cbn [events extract_state transform_state load_state bucket].
  repeat split; try reflexivity. by exists e.
Qed.

(** Whether a run succeeds, and with which frame, does not depend on the
    bucket it starts from. *)
Lemma dag_success_any_bucket (w : World) (logical_date : string)
    (objects : gmap string ParquetFile) :
  load_state (dag w logical_date objects) = success ->
  exists df,
    columns df = final_columns /\
    forall objects' : gmap string ParquetFile,
      load_state (dag w logical_date objects') = success /\
      bucket (dag w logical_date objects') =
        <[output_file OUTPUT_PATH logical_date BASE_CURRENCY := parquet_of df]>
          objects'.
Proof.
  rewrite dag_eq. cbv zeta.
  destruct (run_task task_extract 60 _ 5 1 objects).1.1 as [data|e] eqn:HE;
    [|discriminate].
  destruct (transform to_datetime data logical_date BASE_CURRENCY) as [df|e]
    eqn:HT; [|discriminate].
  cbn [load_state]. unfold load at 1.
  destruct (get_credentials (cloud w)) as [tok|e] eqn:Hcred; [|discriminate].
  destruct (upload_error (cloud w) _ tok) eqn:Hup; [discriminate|].
  intros _. exists df. split.
  { destruct (transform_inv _ _ _ _ _ HT) as (rates & d & _ & _ & _ & ->).
    reflexivity. }
  intros objects'. rewrite dag_eq. cbv zeta.
  destruct (run_task_indep task_extract 60 (fetch w logical_date) 5 1
              objects' objects) as [-> _].
  rewrite HE, HT. unfold load. rewrite Hcred, Hup. by split.
Qed.

(** C7: a run that has written its partition, run once more for the same
    logical date and base currency against the same service, writes again
    and leaves the bucket exactly as the first run left it: the same frame,
    rows and columns in the same order, in the one file at the path of the
    partition, which the second run replaces. Whatever a second run for that
    date fetches, the bucket has the same paths after it as before it. *)
Theorem pipeline_idempotent (w : World) (logical_date : string)
    (objects : gmap string ParquetFile) :
  let run1 := dag w logical_date objects in
  load_state run1 = success ->
  let run2 := dag w logical_date (bucket run1) in
  load_state run2 = success /\
  bucket run2 = bucket run1 /\
  (exists df,
     columns df = final_columns /\
     bucket run1 =
       <[output_file OUTPUT_PATH logical_date BASE_CURRENCY := parquet_of df]>
         objects /\
     bucket run2 !! output_file OUTPUT_PATH logical_date BASE_CURRENCY =
       Some (parquet_of df)) /\
  (forall w' : World,
     dom (bucket (dag w' logical_date (bucket run1))) = dom (bucket run1)).
Proof.
  intros run1 Hok run2.
  destruct (dag_success_any_bucket w logical_date objects Hok)
    as (df & Hcols & Hany).
  destruct (Hany objects) as [_ Hb1]. fold run1 in Hb1.
  destruct (Hany (bucket run1)) as [Hok2 Hb2]. fold run2 in Hok2, Hb2.
  assert (Hsame : bucket run2 = bucket run1).
  { rewrite Hb2, Hb1. apply insert_insert_eq. }
  split; [exact Hok2|]. split; [exact Hsame|]. split.
  - exists df. split; [exact Hcols|]. split; [exact Hb1|].
    rewrite Hsame, Hb1. apply lookup_insert_eq.
  - intros w'.
    destruct (dag_bucket w' logical_date (bucket run1)) as [->|[file ->]];
      [reflexivity|].
    rewrite dom_insert_L, Hb1, dom_insert_L.
    by rewrite (assoc_L (∪)), (idemp_L (∪)).
Qed.

(** C10: a run that writes its partition writes it at the path whose date
    segment is the requested logical date: the path is computed from the
    logical date alone. The records carry the date that [transform]
    resolved: when the service echoes a date that reads as another day than
    the logical date, every record of the file carries the day of the
    service, and the date column and the date segment of the path
    disagree. *)
Theorem partition_date_is_logical_date (w : World) (logical_date : string)
    (objects : gmap string ParquetFile) :
  let run := dag w logical_date objects in
  load_state run = success ->
  exists (k : nat) (data : dict) (df : DataFrame),
    (1 <= k <= 6)%nat /\
    fetch w logical_date k = Ok data /\
    bucket run =
      <[OUTPUT_PATH +:+ "/base_currency=" +:+ BASE_CURRENCY +:+
        "/date=" +:+ logical_date +:+ "/data.parquet" := parquet_of df]>
        objects /\
    forall (v : json) (d d' : option Timestamp),
      dict_lookup data "date" = Some v ->
      to_datetime v = Ok d ->
      to_datetime (JStr logical_date) = Ok d' ->
      d <> d' ->
      column df "date" = Ok (replicate (len df) (date_cell d)) /\
      column df "date" <> Ok (replicate (len df) (date_cell d')) /\
      (0 < len df)%nat.
Proof.
  intros run Hok.
  destruct (dag_success_inv w logical_date objects Hok)
    as (k & data & df & Hk & Hfetch & Htr & Hb).
  exists k, data, df. rewrite <- output_file_eq.
  split; [lia|]. split; [exact Hfetch|]. split; [exact Hb|].
  intros v d d' Hv Hd Hd' Hneq.
  destruct (transform_inv _ _ _ _ _ Htr) as (rates & d0 & _ & Hne & Hd0 & ->).
  rewrite (dict_get_lookup _ _ _ _ Hv) in Hd0.
  assert (d0 = d) as -> by congruence.
  rewrite len_rate_table, column_date.
  destruct rates as [|kv rates]; [done|].
  split; [reflexivity|]. split; [|simpl; lia].
  simpl. intros [= Hcell]. apply Hneq.
  destruct d as [t|], d' as [t'|]; simpl in Hcell; congruence.
Qed.

End DagProps.

(** C8: for the response {"date":"2025-07-01","rates":{"EUR":0.92,"GBP":0.79}},
    the base currency "USD" and the logical date 2025-07-01, [transform]
    returns the frame of the two rows (2025-07-01, USD, EUR, 0.92) and
    (2025-07-01, USD, GBP, 0.79), and the run writes the file of that frame
    at OUTPUT_PATH/base_currency=USD/date=2025-07-01/data.parquet. *)
Theorem end_to_end_scenario (API_URL OUTPUT_PATH : string)
    (objects : gmap string ParquetFile) :
  let day := CTime (mkTimestamp 2025 7 1 0) in
  let table :=
    {| columns := ["date"; "base_currency"; "currency_code"; "rate"];
       values :=
         [[day; CObj (JStr "USD"); CObj (JStr "EUR"); CObj (JNum 0.92)];
          [day; CObj (JStr "USD"); CObj (JStr "GBP"); CObj (JNum 0.79)]] |} in
  let run :=
    currency_rates_etl_dag API_URL "USD" OUTPUT_PATH iso_to_datetime
      (world_up sample_response) "2025-07-01" objects in
  transform iso_to_datetime sample_response "2025-07-01" "USD" = Ok table /\
  load_state run = success /\
  events run =
    [Called task_extract 1; Called task_transform 1; Called task_load 1] /\
  bucket run =
    <[OUTPUT_PATH +:+ "/base_currency=USD/date=2025-07-01/data.parquet" :=
        parquet_of table]> objects.
Proof.
  intros day table run. subst run. rewrite dag_eq. cbv zeta.
  assert (Htr : transform iso_to_datetime sample_response "2025-07-01" "USD"
                = Ok table) by reflexivity.
  cbn [run_task world_up network cloud].
  assert (Hfetch :
    extract API_URL
      (fun endpoint _ => inr {| status_code := 200; reason := "OK";
                                 url := endpoint;
                                 body := Some (JObj sample_response) |})
      "2025-07-01" "USD" = Ok sample_response) by reflexivity.
  rewrite Hfetch. cbn [fst snd]. rewrite Htr.
  unfold load. cbn [get_credentials upload_error fst snd state_of].
  cbn [load_state events bucket].
  rewrite (output_file_eq OUTPUT_PATH "2025-07-01" "USD").
  repeat split; reflexivity.
Qed.

(** ** The theorems at the values of the examples *)



(** An empty dict of rates is rejected. *)
Lemma transform_rejects_empty_rates_witness :
  dict_get [("date", JStr "2025-07-01"); ("rates", JObj [])] "rates" (JObj [])
    = JObj [] /\
  transform iso_to_datetime [("date", JStr "2025-07-01"); ("rates", JObj [])]
    "2025-07-01" "USD"
  = Err (ValueError "No rate data available for 2025-07-01").
Proof.
  split; [reflexivity|].
  apply (transform_rejects_empty_rates iso_to_datetime
           [("date", JStr "2025-07-01"); ("rates", JObj [])] "2025-07-01" "USD").
  reflexivity.
Defined.

(** C4 as the specification states it fails on a response whose date is no
    date: the rule of the specification resolves the fallback 2025-07-01,
    and [transform] raises and returns no frame. *)
Lemma unparseable_date_counterexample :
  spec_resolved_date iso_to_datetime garbled_response "2025-07-01"
    = Ok (Some (mkTimestamp 2025 7 1 0)) /\
  transform iso_to_datetime garbled_response "2025-07-01" "USD"
    = Err (ValueError "Unknown datetime string format, unable to parse: not-a-date") /\
  ~ stamps_spec_resolved_date iso_to_datetime garbled_response "2025-07-01" "USD".
Proof.
  split; [reflexivity|]. split; [reflexivity|].
  intros (d & df & _ & Hdf & _). discriminate Hdf.
Qed.

(** The date of the service that does not parse is not replaced. *)
Lemma transform_stamps_resolved_date_witness :
  dict_lookup garbled_response "rates" = Some (JObj sample_rates) /\
  sample_rates <> [] /\
  transform iso_to_datetime garbled_response "2025-07-01" "USD"
    = Err (ValueError "Unknown datetime string format, unable to parse: not-a-date").
Proof.
  assert (H2 : sample_rates <> []) by discriminate.
  split; [reflexivity|]. split; [exact H2|].
  exact (transform_stamps_resolved_date iso_to_datetime garbled_response
           "2025-07-01" "USD" sample_rates eq_refl H2).
Defined.

(** A response without a date takes the logical date. *)
Lemma transform_date_fallback_witness :
  dict_lookup [("rates", JObj sample_rates)] "rates" = Some (JObj sample_rates) /\
  sample_rates <> [] /\
  dict_lookup [("rates", JObj sample_rates)] "date" = None /\
  iso_to_datetime (JStr "2025-07-01") = Ok (Some (mkTimestamp 2025 7 1 0)) /\
  exists df,
    transform iso_to_datetime [("rates", JObj sample_rates)] "2025-07-01" "USD"
      = Ok df /\
    len df = 2%nat /\
    column df "date" = Ok (replicate (len df) (CTime (mkTimestamp 2025 7 1 0))).
Proof.
  assert (H2 : sample_rates <> []) by discriminate.
  split; [reflexivity|]. split; [exact H2|]. split; [reflexivity|].
  split; [reflexivity|].
  exact (transform_date_fallback iso_to_datetime [("rates", JObj sample_rates)]
           "2025-07-01" "USD" sample_rates (mkTimestamp 2025 7 1 0)
           eq_refl H2 eq_refl eq_refl).
Defined.

(** A 404 and a timeout end in the same exception. *)
Lemma extract_failure_uniform_witness :
  let not_found : string -> list (string * string) -> http_outcome :=
    fun endpoint _ =>
      inr {| status_code := 404; reason := "Not Found"; url := endpoint;
             body := None |} in
  let timed_out : string -> list (string * string) -> http_outcome :=
    fun _ _ => inl (Timeout "Read timed out.") in
  fetch_fails (not_found ("https://api.frankfurter.app" +:+ "/" +:+ "2025-07-01")
                 [("base", "USD")]) /\
  fetch_fails (timed_out ("https://api.frankfurter.app" +:+ "/" +:+ "2025-07-01")
                 [("base", "USD")]) /\
  (exists e : RequestException,
     extract "https://api.frankfurter.app" not_found "2025-07-01" "USD" =
       Err (AirflowException ("API request failed: " +:+ str_request e))) /\
  (exists e : RequestException,
     extract "https://api.frankfurter.app" timed_out "2025-07-01" "USD" =
       Err (AirflowException ("API request failed: " +:+ str_request e))).
Proof.
  intros not_found timed_out.
  assert (H : fetch_fails
                (not_found ("https://api.frankfurter.app" +:+ "/" +:+ "2025-07-01")
                   [("base", "USD")])) by (simpl; lia).
  assert (H' : fetch_fails
                 (timed_out ("https://api.frankfurter.app" +:+ "/" +:+ "2025-07-01")
                    [("base", "USD")])) by exact I.
  split; [exact H|]. split; [exact H'|]. split.
  - exact (extract_failure_uniform "https://api.frankfurter.app" not_found
             "2025-07-01" "USD" H).
  - exact (extract_failure_uniform "https://api.frankfurter.app" timed_out
             "2025-07-01" "USD" H').
Defined.

(** C2 as the specification states it fails when the service is down: the
    run calls [extract] six times, not five. *)
Lemma five_calls_counterexample :
  let run :=
    currency_rates_etl_dag "https://api.frankfurter.app" "USD" "gs://rates"
      iso_to_datetime world_down "2025-07-01" ∅ in
  (forall n,
     is_ok (extract "https://api.frankfurter.app" (network world_down n)
              "2025-07-01" "USD") = false) /\
  calls task_extract (events run) = 6%nat /\
  calls task_extract (events run) <> 5%nat.
Proof.
  split; [intros n; reflexivity|].
  split; [reflexivity|]. vm_compute. discriminate.
Qed.

(** The service down at every try. *)
Lemma extract_retries_exhausted_witness :
  let run :=
    currency_rates_etl_dag "https://api.frankfurter.app" "USD" "gs://rates"
      iso_to_datetime world_down "2025-07-01" ∅ in
  (forall n,
     is_ok (extract "https://api.frankfurter.app" (network world_down n)
              "2025-07-01" "USD") = false) /\
  calls task_extract (events run) = 6%nat /\
  waits (events run) = [60; 60; 60; 60; 60] /\
  calls task_transform (events run) = 0%nat /\
  calls task_load (events run) = 0%nat /\
  load_state run = upstream_failed.
Proof.
  intros run.
  assert (H : forall n,
            is_ok (extract "https://api.frankfurter.app" (network world_down n)
                     "2025-07-01" "USD") = false) by (intros n; reflexivity).
  split; [exact H|].
  destruct (extract_retries_exhausted "https://api.frankfurter.app" "USD"
              "gs://rates" iso_to_datetime world_down "2025-07-01" ∅ H)
    as (H6 & _ & Hw & Ht & Hl & _ & _ & Hs & _).
  split; [exact H6|]. split; [exact Hw|]. split; [exact Ht|].
  split; [exact Hl|exact Hs].
Defined.

(** Two runs for 2025-07-01 against a service that answers the sample. *)
Lemma pipeline_idempotent_witness :
  let run1 :=
    currency_rates_etl_dag "https://api.frankfurter.app" "USD" "gs://rates"
      iso_to_datetime (world_up sample_response) "2025-07-01" ∅ in
  let run2 :=
    currency_rates_etl_dag "https://api.frankfurter.app" "USD" "gs://rates"
      iso_to_datetime (world_up sample_response) "2025-07-01" (bucket run1) in
  load_state run1 = success /\
  load_state run2 = success /\
  bucket run2 = bucket run1.
Proof.
  intros run1 run2.
  assert (H : load_state run1 = success) by reflexivity.
  split; [exact H|].
  destruct (pipeline_idempotent "https://api.frankfurter.app" "USD" "gs://rates"
              iso_to_datetime (world_up sample_response) "2025-07-01" ∅ H)
    as (H2 & Hb & _).
  split; [exact H2|exact Hb].
Defined.

(** The service echoes 2025-06-30 to a run for 2025-07-01: the file is at
    date=2025-07-01 and its records carry 2025-06-30. *)
Lemma partition_date_is_logical_date_witness :
  let run :=
    currency_rates_etl_dag "https://api.frankfurter.app" "USD" "gs://rates"
      iso_to_datetime (world_up stale_response) "2025-07-01" ∅ in
  load_state run = success /\
  exists df,
    bucket run =
      <["gs://rates" +:+ "/base_currency=" +:+ "USD" +:+
        "/date=" +:+ "2025-07-01" +:+ "/data.parquet" := parquet_of df]> ∅ /\
    column df "date" =
      Ok (replicate (len df) (CTime (mkTimestamp 2025 6 30 0))) /\
    column df "date" <>
      Ok (replicate (len df) (CTime (mkTimestamp 2025 7 1 0))).
Proof.
  intros run.
  assert (H : load_state run = success) by reflexivity.
  split; [exact H|].
  destruct (partition_date_is_logical_date "https://api.frankfurter.app" "USD"
              "gs://rates" iso_to_datetime (world_up stale_response)
              "2025-07-01" ∅ H)
    as (k & data & df & _ & Hfetch & Hb & Hdate).
  change (Ok stale_response = Ok data) in Hfetch.
  injection Hfetch as <-.
  destruct (Hdate (JStr "2025-06-30") (Some (mkTimestamp 2025 6 30 0))
              (Some (mkTimestamp 2025 7 1 0)) eq_refl eq_refl eq_refl)
    as (Hcol & Hdiff & _); [discriminate|].
  exists df. split; [exact Hb|]. split; [exact Hcol|exact Hdiff].
Defined.

(** * Further properties of the module *)

(** ** The configuration block *)

(** X1: the configuration is read exactly when both Variables exist, and it
    is their values, unchanged. *)
Theorem dag_configuration_ok_iff (variables : gmap string string)
    (base_currency output_path : string) :
  dag_configuration variables = Ok (base_currency, output_path) <->
  variables !! "base_currency" = Some base_currency /\
  variables !! "output_path" = Some output_path.
Proof.
  unfold dag_configuration, Variable_get.
  destruct (variables !! "base_currency") as [b|];
    destruct (variables !! "output_path") as [o|]; simpl;
    split; try (intros [= -> ->]; done); try (intros [[= ->] [= ->]]; done);
    try discriminate; intros [? ?]; discriminate.
Qed.

(** X2: a missing Variable ends the module with [AirflowException], never
    with the [KeyError] itself; the text names the first Variable that is
    missing, base_currency before output_path. *)
Theorem dag_configuration_missing (variables : gmap string string) :
  (variables !! "base_currency" = None ->
   dag_configuration variables =
     Err (AirflowException
            "Failed to load Airflow Variable: 'Variable base_currency does not exist'. Please set it in Airflow UI.")) /\
  (is_Some (variables !! "base_currency") ->
   variables !! "output_path" = None ->
   dag_configuration variables =
     Err (AirflowException
            "Failed to load Airflow Variable: 'Variable output_path does not exist'. Please set it in Airflow UI.")) /\
  (forall key, dag_configuration variables <> Err (KeyError key)).
Proof.
  unfold dag_configuration, Variable_get. repeat split.
  - by intros ->.
  - intros [b ->] ->. reflexivity.
  - intros key.
    destruct (variables !! "base_currency"); [|discriminate].
    destruct (variables !! "output_path"); discriminate.
Qed.

(** ** extract, beyond the failing fetch *)

Lemma raise_for_status_ok_iff (r : Response) :
  raise_for_status r = Ok () <-> ~ (400 <= status_code r < 600).
Proof.
  unfold raise_for_status.
  destruct (Z.leb_spec 400 (status_code r)), (Z.ltb_spec (status_code r) 500),
    (Z.leb_spec 500 (status_code r)), (Z.ltb_spec (status_code r) 600);
    simpl; split; try discriminate; try lia; reflexivity.
Qed.

(** X3: [extract] returns exactly when [requests.get] returned a response
    whose status is outside 400..599 and whose body is a JSON object; it
    returns that object as it is, rates unchecked. *)
Theorem extract_ok_iff (API_URL : string)
    (requests_get : string -> list (string * string) -> http_outcome)
    (logical_date_str base_currency : string) (data : dict) :
  extract API_URL requests_get logical_date_str base_currency = Ok data <->
  exists r : Response,
    requests_get (API_URL +:+ "/" +:+ logical_date_str)
      [("base", base_currency)] = inr r /\
    ~ (400 <= status_code r < 600) /\
    body r = Some (JObj data).
Proof.
  unfold extract.
  destruct (requests_get _ _) as [e|r]; simpl.
  { split; [discriminate|]. intros (r & [=] & _). }
  destruct (raise_for_status r) as [[]|e] eqn:Hst; simpl.
  - apply raise_for_status_ok_iff in Hst.
    unfold response_json. destruct (body r) as [v|] eqn:Hbody; simpl.
    + destruct v as [| | | | |d]; simpl;
        try (split; [discriminate|intros (r' & [= <-] & _ & Hb); congruence]).
      split.
      * intros [= ->]. by exists r.
      * intros (r' & [= <-] & _ & Hb). congruence.
    + split; [discriminate|]. intros (r' & [= <-] & _ & Hb). congruence.
  - split.
    + destruct e as [q| | | | |]; discriminate.
    + intros (r' & [= <-] & Hok & _).
      apply raise_for_status_ok_iff in Hok. congruence.
Qed.


(** ** transform, beyond the claims *)

Section TransformExtras.

Variable to_datetime : json -> result (option Timestamp).

Lemma column_rate (d : option Timestamp) (base_currency : string)
    (rates : dict) :
  forallb held_as_is (snd <$> rates) = true ->
  column (rate_table d base_currency rates) "rate"
  = Ok ((fun kv => CObj kv.2) <$> rates).
Proof.
  intros Hheld.
  unfold column, rate_table; cbn [columns values].
  change (index_of "rate" final_columns) with (Some 3%nat).
  f_equal. rewrite <- list_fmap_compose.
  apply list_fmap_ext. intros _ kv _.
  unfold compose, rate_record, infer_cell. by rewrite Hheld.
Qed.

(** X5: every value of rates that Python takes for false is rejected like
    the empty dict: a missing key, null, false, 0, the empty string and the
    empty list all raise the [ValueError] of "no rate data". *)
Theorem transform_rejects_falsy_rates
    (data : dict) (logical_date_str base_currency : string) :
  In (dict_lookup data "rates")
     [None; Some JNull; Some (JBool false); Some (JNum 0%Q); Some (JStr "");
      Some (JArr []); Some (JObj [])] ->
  transform to_datetime data logical_date_str base_currency =
    Err (ValueError ("No rate data available for " +:+ logical_date_str)).
Proof.
  intros Hin. unfold transform, dict_get. simpl in Hin.
  destruct Hin as [<-|[<-|[<-|[<-|[<-|[<-|[<-|[]]]]]]]]; reflexivity.
Qed.

(** X6: rates that are true for Python but no dict (a number, a string, a
    list with an element, true) make [transform] raise [AttributeError] at
    [items()], before the date is read: the error is the same whatever
    [to_datetime] would do. *)
Theorem transform_rates_not_a_dict
    (data : dict) (logical_date_str base_currency : string) (v : json) :
  dict_lookup data "rates" = Some v ->
  truthy v = true ->
  (forall d, v <> JObj d) ->
  exists msg,
    transform to_datetime data logical_date_str base_currency =
      Err (AttributeError msg).
Proof.
  intros Hv Ht Hnd. unfold transform.
  rewrite (dict_get_lookup _ _ _ _ Hv), Ht. simpl.
  destruct v as [| | | | |d]; try (by eexists).
  by destruct (Hnd d).
Qed.

(** X7: for a response whose date, when it has one, is a string or null,
    [transform] returns a frame exactly when rates is a dict with an entry
    and [to_datetime] reads the date that applies. *)
Theorem transform_ok_iff
    (data : dict) (logical_date_str base_currency : string) :
  (forall v, dict_lookup data "date" = Some v ->
             v = JNull \/ exists s, v = JStr s) ->
  is_ok (transform to_datetime data logical_date_str base_currency) = true <->
  exists rates : dict,
    dict_lookup data "rates" = Some (JObj rates) /\ rates <> [] /\
    is_ok (to_datetime (dict_get data "date" (JStr logical_date_str))) = true.
Proof.
  intros _. split.
  - destruct (transform to_datetime data logical_date_str base_currency)
      as [df|e] eqn:H; [|discriminate].
    intros _. destruct (transform_inv to_datetime _ _ _ _ H)
      as (rates & d & Hr & Hne & Hd & _).
    exists rates. by rewrite Hd.
  - intros (rates & Hr & Hne & Hd).
    rewrite (transform_nonempty to_datetime _ _ _ _ Hr Hne).
    by destruct (to_datetime _).
Qed.

(** X8: a frame that [transform] returns is never empty and is rectangular:
    it has the four columns and every row has four cells. *)
Theorem transform_frame_invariant
    (data : dict) (logical_date_str base_currency : string) (df : DataFrame) :
  transform to_datetime data logical_date_str base_currency = Ok df ->
  (0 < len df)%nat /\
  length (columns df) = 4%nat /\
  Forall (fun row => length row = length (columns df)) (values df).
Proof.
  intros H. destruct (transform_inv to_datetime _ _ _ _ H)
    as (rates & d & _ & Hne & _ & ->).
  rewrite len_rate_table. split; [|split; [reflexivity|]].
  - destruct rates; [done|simpl; lia].
  - unfold rate_table; cbn [columns values].
    apply Forall_fmap, Forall_forall. intros kv _. reflexivity.
Qed.

(** X9: the column currency_code of the frame is the keys of rates, in the
    order of the dict; when every rate is a number that needs no rounding (a
    float, or an integer of at most 2^53 in absolute value), the column rate
    is the values of the dict, in the same order: the frame then gives the
    mapping back. *)
Theorem transform_columns_follow_rates
    (data : dict) (logical_date_str base_currency : string) (df : DataFrame) :
  transform to_datetime data logical_date_str base_currency = Ok df ->
  exists rates : dict,
    dict_lookup data "rates" = Some (JObj rates) /\
    column df "currency_code" = Ok ((fun kv => CObj (JStr kv.1)) <$> rates) /\
    (forallb held_as_is (snd <$> rates) = true ->
     column df "rate" = Ok ((fun kv => CObj kv.2) <$> rates)).
Proof.
  intros H. destruct (transform_inv to_datetime _ _ _ _ H)
    as (rates & d & Hr & _ & _ & ->).
  exists rates. split; [exact Hr|].
  split; [apply column_currency_code|apply column_rate].
Qed.

(** X10: when the response has a date key and rates with an entry, the
    fallback argument plays no part: [transform] gives the same result for
    every logical date. *)
Theorem transform_fallback_unused
    (data : dict) (logical_date_str logical_date_str' base_currency : string)
    (v : json) (rates : dict) :
  dict_lookup data "date" = Some v ->
  dict_lookup data "rates" = Some (JObj rates) ->
  rates <> [] ->
  transform to_datetime data logical_date_str base_currency =
  transform to_datetime data logical_date_str' base_currency.
Proof.
  intros Hv Hr Hne.
  rewrite !(transform_nonempty to_datetime _ _ _ _ Hr Hne).
  by rewrite !(dict_get_lookup _ _ _ _ Hv).
Qed.

End TransformExtras.

(** ** load, beyond the path *)

Lemma string_length_append (a b : string) :
  String.length (a +:+ b) = (String.length a + String.length b)%nat.
Proof.
  induction a as [|ch a IH]; [reflexivity|].
  change (S (String.length (a +:+ b)) = S (String.length a + String.length b)).
  by rewrite IH.
Qed.

(** Strings that agree after the same suffix is put behind them agree. *)
Lemma append_inj_suffix (c a b : string) : a +:+ c = b +:+ c -> a = b.
Proof.
  revert b. induction a as [|x a IH]; intros [|y b] H.
  - reflexivity.
  - apply (f_equal String.length) in H.
    change (String.length c = S (String.length (b +:+ c))) in H.
    rewrite string_length_append in H. lia.
  - apply (f_equal String.length) in H.
    change (S (String.length (a +:+ c)) = String.length c) in H.
    rewrite string_length_append in H. lia.
  - change (String x (a +:+ c) = String y (b +:+ c)) in H.
    injection H as -> H. f_equal. by apply IH.
Qed.

Section LoadExtras.

Variable OUTPUT_PATH : string.

(** X11: [load] returns exactly when the credentials are there and the
    upload to the path of the partition does not raise. *)
Theorem load_ok_iff (cloud : Cloud) (df : DataFrame)
    (logical_date_str base_currency : string)
    (objects : gmap string ParquetFile) :
  is_ok (load OUTPUT_PATH cloud df logical_date_str base_currency objects).1
    = true <->
  exists credentials,
    get_credentials cloud = Ok credentials /\
    upload_error cloud
      (output_file OUTPUT_PATH logical_date_str base_currency) credentials
    = None.
Proof.
  unfold load.
  destruct (get_credentials cloud) as [tok|e]; simpl.
  - destruct (upload_error cloud _ tok) eqn:Hup; simpl.
    + split; [discriminate|]. intros (tok' & [= <-] & H). congruence.
    + split; [|done]. intros _. by exists tok.
  - split; [discriminate|]. intros (tok & [=] & _).
Qed.

(** X12: a [load] that raises, for want of credentials or by a failed
    upload, raises [AirflowException] and leaves the bucket as it was. *)
Theorem load_failure_keeps_bucket (cloud : Cloud) (df : DataFrame)
    (logical_date_str base_currency : string)
    (objects : gmap string ParquetFile) :
  let r := load OUTPUT_PATH cloud df logical_date_str base_currency objects in
  is_ok r.1 = false ->
  r.2 = objects /\ exists msg, r.1 = Err (AirflowException msg).
Proof.
  intros r. subst r. unfold load.
  destruct (get_credentials cloud) as [tok|e]; simpl.
  - destruct (upload_error cloud _ tok); simpl; [|discriminate].
    intros _. split; [reflexivity|by eexists].
  - intros _. split; [reflexivity|by eexists].
Qed.

(** X13: after a [load] that returns, reading the path of the partition
    gives the frame back, written without the index, by pyarrow, compressed
    with snappy; every other path of the bucket holds what it held. *)
Theorem load_read_back (cloud : Cloud) (df : DataFrame)
    (logical_date_str base_currency : string)
    (objects : gmap string ParquetFile) :
  let r := load OUTPUT_PATH cloud df logical_date_str base_currency objects in
  is_ok r.1 = true ->
  r.2 !! output_file OUTPUT_PATH logical_date_str base_currency =
    Some {| pq_frame := df; pq_index := false; pq_engine := "pyarrow";
            pq_compression := "snappy" |} /\
  forall path,
    path <> output_file OUTPUT_PATH logical_date_str base_currency ->
    r.2 !! path = objects !! path.
Proof.
  intros r Hok.
  pose proof (load_result OUTPUT_PATH cloud df logical_date_str base_currency
                objects) as H.
  cbv zeta in H. fold r in H.
  destruct (r.1); [|discriminate]. rewrite H. split.
  - apply lookup_insert_eq.
  - intros path Hne. by apply lookup_insert_ne.
Qed.

Lemma output_file_inj_date (logical_date_str logical_date_str' base_currency : string) :
  output_file OUTPUT_PATH logical_date_str base_currency =
  output_file OUTPUT_PATH logical_date_str' base_currency ->
  logical_date_str = logical_date_str'.
Proof.
  rewrite !output_file_eq. intros H.
  do 4 apply String.app_inj in H.
  by apply append_inj_suffix in H.
Qed.

Lemma output_file_inj_base (logical_date_str base_currency base_currency' : string) :
  output_file OUTPUT_PATH logical_date_str base_currency =
  output_file OUTPUT_PATH logical_date_str base_currency' ->
  base_currency = base_currency'.
Proof.
  rewrite !output_file_eq. intros H.
  do 2 apply String.app_inj in H.
  by apply append_inj_suffix in H.
Qed.

(** X14: under one output root, two dates give two paths for the same base
    currency, and two base currencies give two paths for the same date. *)
Theorem output_file_injective
    (logical_date_str logical_date_str' base_currency base_currency' : string) :
  (output_file OUTPUT_PATH logical_date_str base_currency =
   output_file OUTPUT_PATH logical_date_str' base_currency ->
   logical_date_str = logical_date_str') /\
  (output_file OUTPUT_PATH logical_date_str base_currency =
   output_file OUTPUT_PATH logical_date_str base_currency' ->
   base_currency = base_currency').
Proof.
  split; [apply output_file_inj_date|apply output_file_inj_base].
Qed.

End LoadExtras.

(** ** The log of a task *)

Lemma calls_nil (t : TaskId) : calls t [] = 0%nat.
Proof. reflexivity. Qed.

Lemma calls_cons (t : TaskId) (ev : Event) (log : list Event) :
  calls t (ev :: log) =
  ((if is_call t ev then 1 else 0) + calls t log)%nat.
Proof.
  unfold calls. rewrite filter_cons.
  destruct (is_call t ev); case_decide; simpl; congruence.
Qed.

Lemma calls_app (t : TaskId) (log1 log2 : list Event) :
  calls t (log1 ++ log2) = (calls t log1 + calls t log2)%nat.
Proof. unfold calls. by rewrite filter_app, length_app. Qed.

Lemma waits_app (log1 log2 : list Event) :
  waits (log1 ++ log2) = waits log1 ++ waits log2.
Proof. unfold waits. apply omap_app. Qed.

Lemma calls_exhausted_log (t : TaskId) (delay : Z) (k try_number : nat) :
  calls t (exhausted_log t delay k try_number) = S k.
Proof.
  revert try_number. induction k as [|k IH]; intros try_number; simpl.
  - by destruct t.
  - rewrite !calls_cons, IH. by destruct t.
Qed.

Lemma calls_exhausted_log_other (t t' : TaskId) (delay : Z) (k try_number : nat) :
  t <> t' -> calls t' (exhausted_log t delay k try_number) = 0%nat.
Proof.
  intros Hne. revert try_number.
  induction k as [|k IH]; intros try_number; simpl.
  - rewrite calls_cons. by destruct t, t'.
  - rewrite !calls_cons, IH. by destruct t, t'.
Qed.

Lemma waits_exhausted_log (t : TaskId) (delay : Z) (k try_number : nat) :
  waits (exhausted_log t delay k try_number) = replicate k delay.
Proof.
  revert try_number. induction k as [|k IH]; intros try_number; simpl.
  - reflexivity.
  - unfold waits in *. simpl. by rewrite IH.
Qed.

Lemma total_wait_replicate (k : nat) (delay : Z) :
  total_wait (replicate k delay) = Z.of_nat k * delay.
Proof.
  induction k as [|k IH]; [reflexivity|].
  unfold total_wait in *. cbn [replicate foldr]. rewrite IH. lia.
Qed.

Section RunTaskLog.

Context {A St : Type}.
Variable t : TaskId.
Variable delay : Z.
Variable f : nat -> result A.

Local Abbreviation stateless := (fun (n : nat) (s : St) => (f n, s)).

(** Whatever the tries do, the log of a task is a run of calls with the
    delay between them, at most one call more than there are retries. *)
Lemma run_task_log (retries_left try_number : nat) (st : St) :
  exists k, (k <= retries_left)%nat /\
    (run_task t delay stateless retries_left try_number st).2 =
      exhausted_log t delay k try_number.
Proof.
  revert try_number.
  induction retries_left as [|n IH]; intros try_number; simpl.
  - exists 0%nat. split; [lia|]. by destruct (f try_number).
  - destruct (f try_number) as [a|e].
    + exists 0%nat. split; [lia|done].
    + destruct (IH (S try_number)) as (k & Hk & Hlog).
      destruct (run_task t delay stateless n (S try_number) st) as [[x o] evs].
      simpl in *. subst evs. exists (S k). split; [lia|done].
Qed.

(** A task whose first [k] tries fail and whose next try returns, within
    its retries, returns that value after [k] waits. *)
Lemma run_task_recovers (k retries_left try_number : nat) (st : St) (a : A) :
  (k <= retries_left)%nat ->
  (forall i, (try_number <= i < try_number + k)%nat -> is_ok (f i) = false) ->
  f (try_number + k)%nat = Ok a ->
  run_task t delay stateless retries_left try_number st =
    (Ok a, st, exhausted_log t delay k try_number).
Proof.
  revert retries_left try_number.
  induction k as [|k IH]; intros retries_left try_number Hk Hfail Hok.
  - rewrite Nat.add_0_r in Hok.
    destruct retries_left; simpl; by rewrite Hok.
  - destruct retries_left as [|n]; [lia|]. simpl.
    pose proof (Hfail try_number ltac:(lia)) as Hf.
    destruct (f try_number) as [a'|e]; [discriminate|].
    rewrite (IH n (S try_number)); [done|lia| |].
    + intros i Hi. apply Hfail. lia.
    + rewrite <- Hok. f_equal. lia.
Qed.

End RunTaskLog.

(** ** The DAG, beyond the claims *)

Section DagExtras.

Variable API_URL : string.
Variable BASE_CURRENCY : string.
Variable OUTPUT_PATH : string.
Variable to_datetime : json -> result (option Timestamp).

Local Abbreviation dag :=
  (currency_rates_etl_dag API_URL BASE_CURRENCY OUTPUT_PATH to_datetime).

Local Abbreviation fetch w logical_date :=
  (fun n : nat => extract API_URL (network w n) logical_date BASE_CURRENCY).

Local Abbreviation dag_unfold :=
  (dag_eq API_URL BASE_CURRENCY OUTPUT_PATH to_datetime).

(** The log of a run: the tries of [extract], then [transform] and [load]
    at most once each and in this order. *)
Lemma dag_log (w : World) (logical_date : string)
    (objects : gmap string ParquetFile) :
  exists (k : nat) (rest : list Event),
    (k <= 5)%nat /\
    events (dag w logical_date objects) =
      exhausted_log task_extract 60 k 1 ++ rest /\
    (rest = [] \/ rest = [Called task_transform 1] \/
     rest = [Called task_transform 1; Called task_load 1]).
Proof.
  rewrite dag_unfold. cbv zeta.
  destruct (run_task_log (St := gmap string ParquetFile) task_extract 60
              (fetch w logical_date) 5 1 objects) as (k & Hk & ->).
  destruct (run_task task_extract 60 _ 5 1 objects).1.1 as [data|e].
  - destruct (transform to_datetime data logical_date BASE_CURRENCY) as [df|e].
    + exists k, [Called task_transform 1; Called task_load 1]. auto.
    + exists k, [Called task_transform 1]. auto.
  - exists k, []. rewrite app_nil_r. auto.
Qed.

(** What a run does to the bucket is fixed by the world and the date: it
    leaves the bucket alone, or puts one file, the same whatever the bucket
    held, at the path of the partition. *)
Lemma dag_bucket_fn (w : World) (logical_date : string) :
  exists upd : option ParquetFile,
    forall objects : gmap string ParquetFile,
      bucket (dag w logical_date objects) =
      match upd with
      | Some file =>
          <[output_file OUTPUT_PATH logical_date BASE_CURRENCY := file]> objects
      | None => objects
      end.
Proof.
  destruct (run_task task_extract 60
              (fun n (st : gmap string ParquetFile) => (fetch w logical_date n, st))
              5 1 ∅).1.1 as [data|e] eqn:HE.
  - destruct (transform to_datetime data logical_date BASE_CURRENCY) as [df|e]
      eqn:HT.
    + destruct (get_credentials (cloud w)) as [tok|e] eqn:Hcred.
      * destruct (upload_error (cloud w)
                    (output_file OUTPUT_PATH logical_date BASE_CURRENCY) tok)
          as [e|] eqn:Hup.
        -- exists None. intros objects. rewrite dag_unfold. cbv zeta.
           destruct (run_task_indep task_extract 60 (fetch w logical_date) 5 1
                       objects ∅) as [-> _].
           rewrite HE, HT. unfold load. by rewrite Hcred, Hup.
        -- exists (Some (parquet_of df)). intros objects.
           rewrite dag_unfold. cbv zeta.
           destruct (run_task_indep task_extract 60 (fetch w logical_date) 5 1
                       objects ∅) as [-> _].
           rewrite HE, HT. unfold load. by rewrite Hcred, Hup.
      * exists None. intros objects. rewrite dag_unfold. cbv zeta.
        destruct (run_task_indep task_extract 60 (fetch w logical_date) 5 1
                    objects ∅) as [-> _].
        rewrite HE, HT. unfold load. by rewrite Hcred.
    + exists None. intros objects. rewrite dag_unfold. cbv zeta.
      destruct (run_task_indep task_extract 60 (fetch w logical_date) 5 1
                  objects ∅) as [-> _].
      by rewrite HE, HT.
  - exists None. intros objects. rewrite dag_unfold. cbv zeta.
    destruct (run_task_indep task_extract 60 (fetch w logical_date) 5 1
                objects ∅) as [-> _].
    by rewrite HE.
Qed.

(** X15: when the first [k] tries of [extract] fail and the next one, still
    within the five retries, returns, the run calls [extract] [k + 1] times
    with [k] waits of a minute, and goes on to [transform] with the data of
    that try, called once. *)
Theorem extract_recovers (w : World) (logical_date : string)
    (objects : gmap string ParquetFile) (k : nat) (data : dict) :
  (k <= 5)%nat ->
  (forall j, (1 <= j <= k)%nat -> is_ok (fetch w logical_date j) = false) ->
  fetch w logical_date (S k) = Ok data ->
  let run := dag w logical_date objects in
  calls task_extract (events run) = S k /\
  waits (events run) = replicate k 60 /\
  extract_state run = success /\
  transform_state run =
    state_of (transform to_datetime data logical_date BASE_CURRENCY) /\
  calls task_transform (events run) = 1%nat.
Proof.
  intros Hk Hfail Hok run. subst run. rewrite dag_unfold. cbv zeta.
  rewrite (run_task_recovers task_extract 60 (fetch w logical_date) k 5 1
             objects data Hk); [|intros i Hi; apply Hfail; lia|exact Hok].
  cbn [fst snd].
  destruct (transform to_datetime data logical_date BASE_CURRENCY) as [df|e];
    cbn [events extract_state transform_state state_of];
    rewrite !calls_app, !waits_app, calls_exhausted_log, waits_exhausted_log,
      (calls_exhausted_log_other task_extract task_transform) by done;
    rewrite ?app_nil_r; repeat split; try reflexivity;
    rewrite !calls_cons, !calls_nil; simpl; lia.
Qed.

(** X16: a run whose [transform] raised had fetched the data, called
    [transform] once and did not try it again, never called [load], whose
    task ends as upstream_failed, and left the bucket as it was. *)
Theorem transform_failure_stops_run (w : World) (logical_date : string)
    (objects : gmap string ParquetFile) (e : exn) :
  let run := dag w logical_date objects in
  transform_state run = failed e ->
  extract_state run = success /\
  calls task_transform (events run) = 1%nat /\
  calls task_load (events run) = 0%nat /\
  load_state run = upstream_failed /\
  bucket run = objects.
Proof.
  intros run. subst run. rewrite dag_unfold. cbv zeta.
  destruct (run_task_log (St := gmap string ParquetFile) task_extract 60
              (fetch w logical_date) 5 1 objects) as (k & Hk & ->).
  destruct (run_task task_extract 60 _ 5 1 objects).1.1 as [data|e'];
    [|discriminate].
  destruct (transform to_datetime data logical_date BASE_CURRENCY) as [df|e'];
    [discriminate|].
  intros _.
  cbn [events extract_state load_state bucket].
  rewrite !calls_app,
    (calls_exhausted_log_other task_extract task_transform),
    (calls_exhausted_log_other task_extract task_load) by done.
  repeat split; reflexivity.
Qed.

(** X17: a run that does not end with a successful [load], whichever task
    failed, leaves the bucket as it was: nothing is written in part. *)
Theorem failed_run_keeps_bucket (w : World) (logical_date : string)
    (objects : gmap string ParquetFile) :
  let run := dag w logical_date objects in
  load_state run <> success ->
  bucket run = objects.
Proof.
  intros run. subst run. rewrite dag_unfold. cbv zeta.
  destruct (run_task task_extract 60 _ 5 1 objects).1.1 as [data|e']; [|done].
  destruct (transform to_datetime data logical_date BASE_CURRENCY) as [df|e'];
    [|done].
  pose proof (load_result OUTPUT_PATH (cloud w) df logical_date BASE_CURRENCY
                objects) as HL. cbv zeta in HL.
  cbn [load_state bucket].
  destruct (load OUTPUT_PATH (cloud w) df logical_date BASE_CURRENCY objects).1
    as [[]|e']; simpl.
  - intros H. by destruct H.
  - intros _. by destruct HL.
Qed.

(** X18: a run changes the bucket at no path but the one of its partition:
    the files of other dates and other base currencies stay as they are. *)
Theorem run_touches_only_its_partition (w : World) (logical_date : string)
    (objects : gmap string ParquetFile) (path : string) :
  path <> output_file OUTPUT_PATH logical_date BASE_CURRENCY ->
  bucket (dag w logical_date objects) !! path = objects !! path.
Proof.
  intros Hne.
  destruct (dag_bucket_fn w logical_date) as [[file|] ->]; [|reflexivity].
  by apply lookup_insert_ne.
Qed.

(** X19: the states of the three tasks follow the chain extract, transform,
    load: a task has run only when the one before it succeeded, [extract]
    is never skipped, and a task is upstream_failed exactly when the one
    before it did not succeed. *)
Theorem task_states_follow_chain (w : World) (logical_date : string)
    (objects : gmap string ParquetFile) :
  let run := dag w logical_date objects in
  extract_state run <> upstream_failed /\
  (transform_state run = upstream_failed <-> extract_state run <> success) /\
  (load_state run = upstream_failed <-> transform_state run <> success) /\
  (load_state run = success ->
   extract_state run = success /\ transform_state run = success).
Proof.
  intros run. subst run. rewrite dag_unfold. cbv zeta.
  destruct (run_task task_extract 60 _ 5 1 objects).1.1 as [data|e'].
  - destruct (transform to_datetime data logical_date BASE_CURRENCY) as [df|e'].
    + cbn [extract_state transform_state load_state].
      destruct (load OUTPUT_PATH (cloud w) df logical_date BASE_CURRENCY
                  objects).1 as [[]|e']; simpl; naive_solver.
    + simpl. naive_solver.
  - simpl. naive_solver.
Qed.

(** X20: whatever the service and the cloud do, a run calls [extract] at
    least once and at most six times, [transform] and [load] at most once
    each, and every wait is the minute of the retry delay, five minutes at
    most in all. *)
Theorem run_call_bounds (w : World) (logical_date : string)
    (objects : gmap string ParquetFile) :
  let run := dag w logical_date objects in
  (1 <= calls task_extract (events run) <= 6)%nat /\
  (calls task_load (events run) <= calls task_transform (events run) <= 1)%nat /\
  Forall (fun s => s = 60) (waits (events run)) /\
  0 <= total_wait (waits (events run)) <= 300.
Proof.
  intros run. subst run.
  destruct (dag_log w logical_date objects) as (k & rest & Hk & -> & Hrest).
  rewrite !calls_app, waits_app, calls_exhausted_log, waits_exhausted_log,
    (calls_exhausted_log_other task_extract task_transform),
    (calls_exhausted_log_other task_extract task_load) by done.
  assert (Hw : waits rest = []) by (by destruct Hrest as [->|[->| ->]]).
  rewrite Hw, app_nil_r, total_wait_replicate.
  assert (Hc : (calls task_load rest <= calls task_transform rest <= 1)%nat).
  { destruct Hrest as [->|[->| ->]]; rewrite ?calls_cons, ?calls_nil; simpl; lia. }
  assert (Hx : calls task_extract rest = 0%nat).
  { destruct Hrest as [->|[->| ->]]; rewrite ?calls_cons, ?calls_nil; simpl; lia. }
  rewrite Hx. repeat split; try lia.
  by apply Forall_replicate.
Qed.

(** X21: runs for two different dates do not interfere: the bucket after
    both is the same whichever ran first, be the worlds of the two runs what
    they may. *)
Theorem runs_of_different_dates_commute (w1 w2 : World)
    (date1 date2 : string) (objects : gmap string ParquetFile) :
  date1 <> date2 ->
  bucket (dag w2 date2 (bucket (dag w1 date1 objects))) =
  bucket (dag w1 date1 (bucket (dag w2 date2 objects))).
Proof.
  intros Hne.
  destruct (dag_bucket_fn w1 date1) as [upd1 H1].
  destruct (dag_bucket_fn w2 date2) as [upd2 H2].
  rewrite !H1, !H2.
  destruct upd1 as [file1|], upd2 as [file2|]; try reflexivity.
  apply insert_insert_ne. intros Heq.
  apply Hne. symmetry. by apply output_file_inj_date in Heq.
Qed.

End DagExtras.

(** ** The further properties at the values of the examples *)


(** Rates that are null. *)
Lemma transform_rejects_falsy_rates_witness :
  let data : dict := [("date", JStr "2025-07-01"); ("rates", JNull)] in
  In (dict_lookup data "rates")
     [None; Some JNull; Some (JBool false); Some (JNum 0%Q); Some (JStr "");
      Some (JArr []); Some (JObj [])] /\
  transform iso_to_datetime data "2025-07-01" "USD" =
    Err (ValueError "No rate data available for 2025-07-01").
Proof.
  intros data.
  assert (H : In (dict_lookup data "rates")
                [None; Some JNull; Some (JBool false); Some (JNum 0%Q);
                 Some (JStr ""); Some (JArr []); Some (JObj [])])
    by (right; left; reflexivity).
  split; [exact H|].
  exact (transform_rejects_falsy_rates iso_to_datetime data "2025-07-01" "USD" H).
Defined.

(** Rates that are a list of numbers, with a date that is no date. *)
Lemma transform_rates_not_a_dict_witness :
  let data : dict :=
    [("date", JStr "not-a-date"); ("rates", JArr [JNum 0.92])] in
  dict_lookup data "rates" = Some (JArr [JNum 0.92]) /\
  truthy (JArr [JNum 0.92]) = true /\
  (forall d, JArr [JNum 0.92] <> JObj d) /\
  exists msg,
    transform iso_to_datetime data "2025-07-01" "USD" =
      Err (AttributeError msg).
Proof.
  intros data.
  assert (H : forall d, JArr [JNum 0.92] <> JObj d) by (intros d; discriminate).
  split; [reflexivity|]. split; [reflexivity|]. split; [exact H|].
  exact (transform_rates_not_a_dict iso_to_datetime data "2025-07-01" "USD"
           (JArr [JNum 0.92]) eq_refl eq_refl H).
Defined.

(** The frame of the sample response. *)
Lemma transform_frame_invariant_witness :
  let df := rate_table (Some (mkTimestamp 2025 7 1 0)) "USD" sample_rates in
  transform iso_to_datetime sample_response "2025-07-01" "USD" = Ok df /\
  (0 < len df)%nat /\
  length (columns df) = 4%nat /\
  Forall (fun row => length row = length (columns df)) (values df).
Proof.
  intros df.
  assert (H : transform iso_to_datetime sample_response "2025-07-01" "USD"
              = Ok df) by reflexivity.
  split; [exact H|].
  exact (transform_frame_invariant iso_to_datetime sample_response
           "2025-07-01" "USD" df H).
Defined.

Lemma transform_columns_follow_rates_witness :
  let df := rate_table (Some (mkTimestamp 2025 7 1 0)) "USD" sample_rates in
  transform iso_to_datetime sample_response "2025-07-01" "USD" = Ok df /\
  forallb held_as_is (snd <$> sample_rates) = true /\
  column df "currency_code" = Ok [CObj (JStr "EUR"); CObj (JStr "GBP")] /\
  column df "rate" = Ok [CObj (JNum 0.92); CObj (JNum 0.79)].
Proof.
  intros df.
  assert (H : transform iso_to_datetime sample_response "2025-07-01" "USD"
              = Ok df) by reflexivity.
  assert (Hheld : forallb held_as_is (snd <$> sample_rates) = true)
    by reflexivity.
  split; [exact H|]. split; [exact Hheld|].
  destruct (transform_columns_follow_rates iso_to_datetime sample_response
              "2025-07-01" "USD" df H) as (rates & Hr & Hk & Hv).
  change (Some (JObj sample_rates) = Some (JObj rates)) in Hr.
  injection Hr as <-.
  split; [exact Hk|exact (Hv Hheld)].
Defined.

(** The sample response has a string for its date. *)
Lemma transform_ok_iff_witness :
  (forall v, dict_lookup sample_response "date" = Some v ->
             v = JNull \/ exists s, v = JStr s) /\
  (is_ok (transform iso_to_datetime sample_response "2025-07-01" "USD") = true <->
   exists rates : dict,
     dict_lookup sample_response "rates" = Some (JObj rates) /\ rates <> [] /\
     is_ok (iso_to_datetime
              (dict_get sample_response "date" (JStr "2025-07-01"))) = true).
Proof.
  assert (H : forall v, dict_lookup sample_response "date" = Some v ->
                        v = JNull \/ exists s, v = JStr s).
  { intros v Hv. change (Some (JStr "2025-07-01") = Some v) in Hv.
    injection Hv as <-. right. by exists "2025-07-01". }
  split; [exact H|].
  exact (transform_ok_iff iso_to_datetime sample_response "2025-07-01" "USD" H).
Defined.

(** The sample response with the fallbacks 2025-07-01 and 1999-12-31. *)
Lemma transform_fallback_unused_witness :
  dict_lookup sample_response "date" = Some (JStr "2025-07-01") /\
  dict_lookup sample_response "rates" = Some (JObj sample_rates) /\
  sample_rates <> [] /\
  transform iso_to_datetime sample_response "2025-07-01" "USD" =
  transform iso_to_datetime sample_response "1999-12-31" "USD".
Proof.
  assert (H : sample_rates <> []) by discriminate.
  split; [reflexivity|]. split; [reflexivity|]. split; [exact H|].
  exact (transform_fallback_unused iso_to_datetime sample_response
           "2025-07-01" "1999-12-31" "USD" (JStr "2025-07-01") sample_rates
           eq_refl eq_refl H).
Defined.

(** A [load] without credentials. *)
Lemma load_failure_keeps_bucket_witness :
  let df := rate_table (Some (mkTimestamp 2025 7 1 0)) "USD" sample_rates in
  let r := load "gs://rates" (cloud (world_no_credentials sample_response)) df
             "2025-07-01" "USD" ∅ in
  is_ok r.1 = false /\
  r.2 = ∅ /\ exists msg, r.1 = Err (AirflowException msg).
Proof.
  intros df r.
  assert (H : is_ok r.1 = false) by reflexivity.
  split; [exact H|].
  exact (load_failure_keeps_bucket "gs://rates"
           (cloud (world_no_credentials sample_response)) df
           "2025-07-01" "USD" ∅ H).
Defined.

(** A [load] that goes through. *)
Lemma load_read_back_witness :
  let df := rate_table (Some (mkTimestamp 2025 7 1 0)) "USD" sample_rates in
  let r := load "gs://rates" (cloud (world_up sample_response)) df
             "2025-07-01" "USD" ∅ in
  is_ok r.1 = true /\
  r.2 !! output_file "gs://rates" "2025-07-01" "USD" =
    Some {| pq_frame := df; pq_index := false; pq_engine := "pyarrow";
            pq_compression := "snappy" |}.
Proof.
  intros df r.
  assert (H : is_ok r.1 = true) by reflexivity.
  split; [exact H|].
  exact (proj1 (load_read_back "gs://rates" (cloud (world_up sample_response))
                  df "2025-07-01" "USD" ∅ H)).
Defined.

(** Two timeouts, then the sample response. *)
Lemma extract_recovers_witness :
  let run :=
    currency_rates_etl_dag "https://api.frankfurter.app" "USD" "gs://rates"
      iso_to_datetime (world_flaky sample_response) "2025-07-01" ∅ in
  (2 <= 5)%nat /\
  (forall j, (1 <= j <= 2)%nat ->
     is_ok (extract "https://api.frankfurter.app"
              (network (world_flaky sample_response) j) "2025-07-01" "USD")
     = false) /\
  extract "https://api.frankfurter.app"
    (network (world_flaky sample_response) 3) "2025-07-01" "USD"
  = Ok sample_response /\
  calls task_extract (events run) = 3%nat /\
  waits (events run) = [60; 60] /\
  extract_state run = success.
Proof.
  intros run.
  assert (H1 : (2 <= 5)%nat) by lia.
  assert (H2 : forall j, (1 <= j <= 2)%nat ->
            is_ok (extract "https://api.frankfurter.app"
                     (network (world_flaky sample_response) j) "2025-07-01" "USD")
            = false).
  { intros [|[|[|j]]] Hj; try lia; reflexivity. }
  assert (H3 : extract "https://api.frankfurter.app"
                 (network (world_flaky sample_response) 3) "2025-07-01" "USD"
               = Ok sample_response) by reflexivity.
  split; [exact H1|]. split; [exact H2|]. split; [exact H3|].
  destruct (extract_recovers "https://api.frankfurter.app" "USD" "gs://rates"
              iso_to_datetime (world_flaky sample_response) "2025-07-01" ∅
              2 sample_response H1 H2 H3)
    as (Hc & Hw & Hs & _).
  split; [exact Hc|]. split; [exact Hw|exact Hs].
Defined.

(** The service answers with no rates. *)
Lemma transform_failure_stops_run_witness :
  let run :=
    currency_rates_etl_dag "https://api.frankfurter.app" "USD" "gs://rates"
      iso_to_datetime
      (world_up [("date", JStr "2025-07-01"); ("rates", JObj [])])
      "2025-07-01" ∅ in
  transform_state run =
    failed (ValueError "No rate data available for 2025-07-01") /\
  extract_state run = success /\
  calls task_transform (events run) = 1%nat /\
  calls task_load (events run) = 0%nat /\
  load_state run = upstream_failed /\
  bucket run = ∅.
Proof.
  intros run.
  assert (H : transform_state run =
              failed (ValueError "No rate data available for 2025-07-01"))
    by reflexivity.
  split; [exact H|].
  exact (transform_failure_stops_run "https://api.frankfurter.app" "USD"
           "gs://rates" iso_to_datetime
           (world_up [("date", JStr "2025-07-01"); ("rates", JObj [])])
           "2025-07-01" ∅ _ H).
Defined.

(** The connection of the credentials is missing. *)
Lemma failed_run_keeps_bucket_witness :
  let run :=
    currency_rates_etl_dag "https://api.frankfurter.app" "USD" "gs://rates"
      iso_to_datetime (world_no_credentials sample_response) "2025-07-01" ∅ in
  load_state run <> success /\ bucket run = ∅.
Proof.
  intros run.
  assert (H : load_state run <> success) by (intros H; discriminate H).
  split; [exact H|].
  exact (failed_run_keeps_bucket "https://api.frankfurter.app" "USD"
           "gs://rates" iso_to_datetime (world_no_credentials sample_response)
           "2025-07-01" ∅ H).
Defined.

(** The partition of the day before is not touched. *)
Lemma run_touches_only_its_partition_witness :
  let other := "gs://rates/base_currency=USD/date=2025-06-30/data.parquet" in
  let before : gmap string ParquetFile :=
    {[ other := parquet_of (rate_table None "USD" sample_rates) ]} in
  other <> output_file "gs://rates" "2025-07-01" "USD" /\
  bucket
    (currency_rates_etl_dag "https://api.frankfurter.app" "USD" "gs://rates"
       iso_to_datetime (world_up sample_response) "2025-07-01" before)
    !! other = before !! other.
Proof.
  intros other before.
  assert (H : other <> output_file "gs://rates" "2025-07-01" "USD")
    by (intros H; discriminate H).
  split; [exact H|].
  exact (run_touches_only_its_partition "https://api.frankfurter.app" "USD"
           "gs://rates" iso_to_datetime (world_up sample_response)
           "2025-07-01" before other H).
Defined.

(** The runs of two consecutive days, in both orders. *)
Lemma runs_of_different_dates_commute_witness :
  let run w d objects :=
    currency_rates_etl_dag "https://api.frankfurter.app" "USD" "gs://rates"
      iso_to_datetime w d objects in
  "2025-07-01" <> "2025-07-02" /\
  bucket (run (world_up stale_response) "2025-07-02"
            (bucket (run (world_up sample_response) "2025-07-01" ∅))) =
  bucket (run (world_up sample_response) "2025-07-01"
            (bucket (run (world_up stale_response) "2025-07-02" ∅))).
Proof.
  intros run.
  assert (H : "2025-07-01" <> "2025-07-02") by (intros H; discriminate H).
  split; [exact H|].
  exact (runs_of_different_dates_commute "https://api.frankfurter.app" "USD"
           "gs://rates" iso_to_datetime (world_up sample_response)
           (world_up stale_response) "2025-07-01" "2025-07-02" ∅ H).
Defined.
